(** * stock-analysis-ai: the quantitative analysis engine

    A shallow embedding of the feature engineering, training-data
    preparation, direction prediction, ratio normalisation, undervalued
    scan and sentiment aggregation of the repository, with the properties
    its specification states about them.

    Sources embedded:
    - [stock/build_model.py]       ([calculate_rsi], [prepare_data], [build_model])
    - [stock/analysis_layer.py]    ([calculate_ratios], [_empty_ratios],
                                    [find_undervalued_stocks])
    - [stock_api_deploy/api.py]    ([calculate_features], [predict], [get_sentiment])
    - [stock/huggingface_app.py]   ([analyze_sentiment], the custom-model block)

    Numbers.  Python floats are idealised as exact rationals extended with
    the two infinities and NaN; rounding and the sign of zero are not
    modelled.  Division follows IEEE-754 (as numpy does on a Series):
    [x/0] is an infinity for [x <> 0] and NaN for [x = 0]; every comparison
    with NaN is false. *)

From Stdlib Require Import QArith Qabs Lqa Sorted Permutation.
From stdpp Require Import gmap strings list fin_maps.

Local Open Scope Q_scope.

(* ===================================================================== *)
(** ** Extended rationals: the float model                                *)
(* ===================================================================== *)

Module Float.

Inductive F : Type :=
| Fin (q : Q)
| PInf
| NInf
| NaN.

Definition is_nan (x : F) : bool :=
  match x with NaN => true | _ => false end.

Definition Qpos_b (q : Q) : bool := (0 <? Qnum q)%Z.
Definition Qneg_b (q : Q) : bool := (Qnum q <? 0)%Z.
Definition Qzero_b (q : Q) : bool := (Qnum q =? 0)%Z.

Definition Qlt_b (a b : Q) : bool :=
  (Qnum a * QDen b <? Qnum b * QDen a)%Z.

Definition neg (x : F) : F :=
  match x with
  | Fin q => Fin (- q)
  | PInf => NInf
  | NInf => PInf
  | NaN => NaN
  end.

Definition add (x y : F) : F :=
  match x, y with
  | NaN, _ | _, NaN => NaN
  | Fin a, Fin b => Fin (a + b)
  | PInf, NInf | NInf, PInf => NaN
  | PInf, _ | _, PInf => PInf
  | NInf, _ | _, NInf => NInf
  end.

Definition sub (x y : F) : F := add x (neg y).

(** The sign of an infinity times a finite number. *)
Definition signed_inf (positive : bool) : F := if positive then PInf else NInf.

Definition mul (x y : F) : F :=
  match x, y with
  | NaN, _ | _, NaN => NaN
  | Fin a, Fin b => Fin (a * b)
  | PInf, Fin b | Fin b, PInf =>
      if Qzero_b b then NaN else signed_inf (Qpos_b b)
  | NInf, Fin b | Fin b, NInf =>
      if Qzero_b b then NaN else signed_inf (Qneg_b b)
  | PInf, PInf | NInf, NInf => PInf
  | PInf, NInf | NInf, PInf => NInf
  end.

Definition div (x y : F) : F :=
  match x, y with
  | NaN, _ | _, NaN => NaN
  | Fin a, Fin b =>
      if Qzero_b b
      then (if Qzero_b a then NaN else signed_inf (Qpos_b a))
      else Fin (a / b)
  | Fin _, PInf | Fin _, NInf => Fin 0
  | PInf, Fin b => signed_inf (negb (Qneg_b b))
  | NInf, Fin b => signed_inf (Qneg_b b)
  | _, _ => NaN
  end.

(** [x < y]; false as soon as one side is NaN. *)
Definition lt (x y : F) : bool :=
  match x, y with
  | NaN, _ | _, NaN => false
  | Fin a, Fin b => Qlt_b a b
  | NInf, NInf => false
  | NInf, _ => true
  | _, PInf => match x with PInf => false | _ => true end
  | _, _ => false
  end.

Definition gt (x y : F) : bool := lt y x.

(** [Series.fillna(0)] on one cell. *)
Definition fillna0 (x : F) : F :=
  match x with NaN => Fin 0 | _ => x end.

(** Python truthiness of a float: zero is falsy, NaN and infinities are truthy. *)
Definition truthy (x : F) : bool :=
  match x with Fin q => negb (Qzero_b q) | _ => true end.

End Float.

Import Float.

Declare Scope F_scope.
Delimit Scope F_scope with F.
Infix "+" := add : F_scope.
Infix "-" := sub : F_scope.
Infix "*" := mul : F_scope.
Infix "/" := div : F_scope.
Notation "- x" := (neg x) : F_scope.
Infix "<?" := lt : F_scope.
Infix ">?" := gt (at level 70) : F_scope.

(* ===================================================================== *)
(** ** Exceptions                                                         *)
(* ===================================================================== *)

(** The exceptions the modelled code raises or catches. *)
Inductive PyErr : Type :=
| ValueError (msg : string)
| TypeError (msg : string)
| AttributeError (attr : string)
| HTTPException (status : Z) (detail : string)
| LibraryError (msg : string).

Inductive Exc (A : Type) : Type :=
| Ok (a : A)
| Raise (e : PyErr).
Arguments Ok {A} a.
Arguments Raise {A} e.

Definition bindE {A B} (m : Exc A) (k : A -> Exc B) : Exc B :=
  match m with
  | Ok a => k a
  | Raise e => Raise e
  end.

Notation "'try!' x ':=' m 'in' k" := (bindE m (fun x => k))
  (at level 10, x pattern, m at level 100, k at level 200).

(* ===================================================================== *)
(** ** Series: the pandas column operations the code uses                 *)
(* ===================================================================== *)

(** A column is a list of cells in chronological order; NaN is the
    undefined cell. *)

Module Series.

(** [s.shift(1)]: every cell moves one row down, the first becomes NaN. *)
Definition shift (xs : list F) : list F :=
  match xs with
  | [] => []
  | _ => NaN :: removelast xs
  end.

(** [s.shift(-1)]: every cell moves one row up, the last becomes NaN. *)
Definition shift_back (xs : list F) : list F :=
  match xs with
  | [] => []
  | _ :: tl => tl ++ [NaN]
  end.

(** [s.diff()] is [s - s.shift(1)]. *)
Definition diff (xs : list F) : list F :=
  zip_with sub xs (shift xs).

(** [s.pct_change()] is [s / s.shift(1) - 1]. *)
Definition pct_change (xs : list F) : list F :=
  zip_with (fun x p => (x / p - Fin 1)%F) xs (shift xs).

(** [s.where(cond, 0)]: keep the cell where [cond] holds, else 0. *)
Definition where_or_zero (cond : F -> bool) (xs : list F) : list F :=
  map (fun x => if cond x then x else Fin 0) xs.

Definition sum (xs : list F) : F := foldr add (Fin 0) xs.

(** The [w] cells that end at row [t]. *)
Definition window (w t : nat) (xs : list F) : list F :=
  take w (drop (t + 1 - w) xs).

(** [s.rolling(window=w).mean()] at row [t]: NaN until [w] rows are
    available, and NaN when a cell of the window is. *)
Definition mean_at (w : nat) (xs : list F) (t : nat) : F :=
  if (t + 1 <? w)%nat then NaN
  else (sum (window w t xs) / Fin (inject_Z (Z.of_nat w)))%F.

Definition rolling_mean (w : nat) (xs : list F) : list F :=
  imap (fun t _ => mean_at w xs t) xs.

(** [s.iloc[-1]] *)
Definition iloc_last (xs : list F) : option F := last xs.

End Series.

Import Series.

(* ===================================================================== *)
(** ** Bars and the feature engine                                        *)
(* ===================================================================== *)

(** One trading session.  The data layer hands over only frames with all
    of the OHLCV columns, so the required fields are numbers. *)
Record Bar : Type := mkBar {
  bar_open : Q;
  bar_high : Q;
  bar_low : Q;
  bar_close : Q;
  bar_volume : Q
}.

Definition Close (df : list Bar) : list F := map (fun b => Fin (bar_close b)) df.
Definition Volume (df : list Bar) : list F := map (fun b => Fin (bar_volume b)) df.

(** build_model.py, [calculate_rsi(data, window=14)]:
<<
    delta = data.diff()
    gain = (delta.where(delta > 0, 0)).rolling(window=window).mean()
    loss = (-delta.where(delta < 0, 0)).rolling(window=window).mean()
    rs = gain / loss
    return 100 - (100 / (1 + rs))
>> *)
Definition rsi_gain (window : nat) (data : list F) : list F :=
  rolling_mean window (where_or_zero (fun d => (d >? Fin 0)%F) (diff data)).

Definition rsi_loss (window : nat) (data : list F) : list F :=
  rolling_mean window
    (map neg (where_or_zero (fun d => (d <? Fin 0)%F) (diff data))).

Definition rsi_of_rs (rs : F) : F :=
  (Fin 100 - Fin 100 / (Fin 1 + rs))%F.

Definition calculate_rsi (data : list F) (window : nat) : list F :=
  let gain := rsi_gain window data in
  let loss := rsi_loss window data in
  let rs := zip_with div gain loss in
  map rsi_of_rs rs.

(** The derived columns, shared by training and inference. *)
Definition Returns (df : list Bar) : list F := pct_change (Close df).
Definition SMA_20 (df : list Bar) : list F := rolling_mean 20 (Close df).
Definition SMA_50 (df : list Bar) : list F := rolling_mean 50 (Close df).
Definition dist (close sma : list F) : list F :=
  zip_with (fun c s => ((c - s) / s)%F) close sma.
Definition Dist_SMA_20 (df : list Bar) : list F := dist (Close df) (SMA_20 df).
Definition Dist_SMA_50 (df : list Bar) : list F := dist (Close df) (SMA_50 df).
Definition RSI (df : list Bar) : list F := calculate_rsi (Close df) 14.
Definition Vol_Change (df : list Bar) : list F := pct_change (Volume df).

(** One row of [['Returns', 'Dist_SMA_20', 'Dist_SMA_50', 'RSI', 'Vol_Change']]. *)
Record FeatureRow : Type := mkFeatures {
  f_returns : F;
  f_dist_sma20 : F;
  f_dist_sma50 : F;
  f_rsi : F;
  f_vol_change : F
}.

Definition cell (col : list F) (t : nat) : F := default NaN (col !! t).

Definition feature_row (df : list Bar) (t : nat) : FeatureRow :=
  {| f_returns := cell (Returns df) t;
     f_dist_sma20 := cell (Dist_SMA_20 df) t;
     f_dist_sma50 := cell (Dist_SMA_50 df) t;
     f_rsi := cell (RSI df) t;
     f_vol_change := cell (Vol_Change df) t |}.

(** [features.fillna(0)] *)
Definition fillna (r : FeatureRow) : FeatureRow :=
  {| f_returns := fillna0 (f_returns r);
     f_dist_sma20 := fillna0 (f_dist_sma20 r);
     f_dist_sma50 := fillna0 (f_dist_sma50 r);
     f_rsi := fillna0 (f_rsi r);
     f_vol_change := fillna0 (f_vol_change r) |}.

(* ===================================================================== *)
(** ** Training-data preparation (build_model.py)                         *)
(* ===================================================================== *)

(** [df['Target'] = (df['Close'].shift(-1) > df['Close']).astype(int)]:
    the comparison is evaluated on every row, the last one included, where
    the shifted cell is NaN and the comparison therefore false. *)
Definition Target (df : list Bar) : list Z :=
  zip_with (fun nxt c => if (nxt >? c)%F then 1%Z else 0%Z)
           (shift_back (Close df)) (Close df).

(** The float columns of the frame when [dropna] runs, at row [t].  The
    OHLCV columns and the integer [Target] column hold no NaN. *)
Definition float_cells (df : list Bar) (t : nat) : list F :=
  [ cell (Returns df) t; cell (SMA_20 df) t; cell (SMA_50 df) t;
    cell (Dist_SMA_20 df) t; cell (Dist_SMA_50 df) t;
    cell (RSI df) t; cell (Vol_Change df) t ].

Definition row_has_nan (df : list Bar) (t : nat) : bool :=
  existsb is_nan (float_cells df t).

(** [df.dropna()]: the index labels of the rows that stay. *)
Definition dropna (df : list Bar) : list nat :=
  List.filter (fun t => negb (row_has_nan df t)) (seq 0 (length df)).

(** The frames [X] and [y] keep the index of the rows they come from. *)
Definition XFrame : Type := list (nat * FeatureRow).
Definition ySeries : Type := list (nat * Z).

(** [prepare_data] from the fetched frame on (lines 28-52). *)
Definition prepare_data_of (df : list Bar) : Exc (XFrame * ySeries) :=
  match df with
  | [] => Raise (ValueError "No data fetched.")
  | _ =>
      let kept := dropna df in
      let X := map (fun t => (t, feature_row df t)) kept in
      let y := map (fun t => (t, default 0%Z (Target df !! t))) kept in
      Ok (X, y)
  end.

(* ===================================================================== *)
(** ** Training (build_model.py, [build_model])                           *)
(* ===================================================================== *)

Module Training.

(** What the procedure can leave behind: files and console output. *)
Inductive Artifact (Model Scaler : Type) : Type :=
| ModelFile (m : Model)
| ScalerFile (s : Scaler)
| MetadataFile (model_type : string) (trained_at : string) (accuracy : F)
               (features : list string).
Arguments ModelFile {Model Scaler} m.
Arguments ScalerFile {Model Scaler} s.
Arguments MetadataFile {Model Scaler} model_type trained_at accuracy features.

Record World (Model Scaler : Type) : Type := mkWorld {
  files : gmap string (Artifact Model Scaler);
  stdout : list string
}.
Arguments mkWorld {Model Scaler} files stdout.
Arguments files {Model Scaler} w.
Arguments stdout {Model Scaler} w.

Section Build.

(** The collaborators: market data, scikit-learn, the clock and the disk. *)
Variables Model Scaler : Type.
Variable history : string -> string -> list Bar.
Variable train_test_split :
  XFrame -> ySeries -> Exc ((XFrame * XFrame) * (ySeries * ySeries)).
Variable scaler_fit : XFrame -> Exc Scaler.
Variable scaler_transform : Scaler -> XFrame -> Exc XFrame.
Variable model_fit : XFrame -> ySeries -> Exc Model.
Variable model_predict : Model -> XFrame -> Exc (list Z).
Variable accuracy_score : ySeries -> list Z -> Exc F.
Variable now_isoformat : string.
Variable show_accuracy : F -> string.
Variable writable : string -> bool.

Local Abbreviation W := (World Model Scaler).

(** Effects on the world survive an exception. *)
Definition IO (A : Type) : Type := W -> W * Exc A.

Definition ret {A} (a : A) : IO A := fun w => (w, Ok a).

Definition bind {A B} (m : IO A) (k : A -> IO B) : IO B :=
  fun w =>
    match m w with
    | (w', Ok a) => k a w'
    | (w', Raise e) => (w', Raise e)
    end.

Definition lift {A} (m : Exc A) : IO A := fun w => (w, m).

(** [try: body except Exception as e: handler(e)] *)
Definition try_except {A} (body : IO A) (handler : PyErr -> IO A) : IO A :=
  fun w =>
    match body w with
    | (w', Ok a) => (w', Ok a)
    | (w', Raise e) => handler e w'
    end.

Definition print (line : string) : IO unit :=
  fun w => (mkWorld (files w) (stdout w ++ [line]), Ok tt).

(** [joblib.dump] and [open(.., "w")] + [json.dump]. *)
Definition dump (path : string) (a : Artifact Model Scaler) : IO unit :=
  fun w =>
    if writable path
    then (mkWorld (<[path := a]> (files w)) (stdout w), Ok tt)
    else (w, Raise (LibraryError "OSError")).

Definition str_of_exn (e : PyErr) : string :=
  match e with
  | ValueError msg => msg
  | TypeError msg => msg
  | AttributeError a => a
  | HTTPException _ detail => detail
  | LibraryError msg => msg
  end.

Local Notation "'run' x ':=' m 'in' k" := (bind m (fun x => k))
  (at level 10, x pattern, m at level 100, k at level 200).
Local Notation "m '>>' k" := (bind m (fun _ => k))
  (at level 100, right associativity).

Definition feature_names : list string :=
  ["Returns"; "Dist_SMA_20"; "Dist_SMA_50"; "RSI"; "Vol_Change"].

Definition prepare_data (ticker period : string) : IO (XFrame * ySeries) :=
  print ("Fetching data for " +:+ ticker +:+ "...") >>
  lift (prepare_data_of (history ticker period)).

Definition build_model : IO unit :=
  print "Starting Custom Model Training (AdaBoost)..." >>
  try_except
    (run (X, y) := prepare_data "SPY" "5y" in
     run ((X_train, X_test), (y_train, y_test)) := lift (train_test_split X y) in
     run scaler := lift (scaler_fit X_train) in
     run X_train_scaled := lift (scaler_transform scaler X_train) in
     run X_test_scaled := lift (scaler_transform scaler X_test) in
     print "Training model..." >>
     run model := lift (model_fit X_train_scaled y_train) in
     run preds := lift (model_predict model X_test_scaled) in
     run acc := lift (accuracy_score y_test preds) in
     print "------------------------------------------------" >>
     print ("Model Accuracy on Test Set: " +:+ show_accuracy acc) >>
     print "------------------------------------------------" >>
     print "Saving model artifacts..." >>
     dump "adaboost_model.joblib" (ModelFile model) >>
     dump "scaler.joblib" (ScalerFile scaler) >>
     dump "model_metadata.json"
          (MetadataFile "AdaBoostClassifier" now_isoformat acc feature_names) >>
     print "Build Complete! Model is ready for production.")
    (fun e => print ("Error during training: " +:+ str_of_exn e)).

End Build.

End Training.

(* ===================================================================== *)
(** ** Ratio normalisation and the undervalued scan (analysis_layer.py)   *)
(* ===================================================================== *)

Module Analysis.

(** A value of the provider's [info] payload under one of the numeric
    keys: a JSON number or null. *)
Inductive PyVal : Type :=
| PyNone
| PyNum (x : F).

(** [float(v)]: [float(None)] is a TypeError. *)
Definition py_float (v : PyVal) : Exc F :=
  match v with
  | PyNone => Raise (TypeError "float() argument must be a string or a real number")
  | PyNum x => Ok x
  end.

Definition py_truthy (v : PyVal) : bool :=
  match v with
  | PyNone => false
  | PyNum x => truthy x
  end.

(** [a or b] *)
Definition py_or (a b : PyVal) : PyVal := if py_truthy a then a else b.

(** What [get_financials] returns when it does not fail: only the
    ['info'] entry is read by this layer. *)
Record Financials : Type := mkFinancials {
  info : option (gmap string PyVal)
}.

(** The [Ratios] object is its attribute dictionary. *)
Definition getattr (r : gmap string F) (name : string) : Exc F :=
  match r !! name with
  | Some v => Ok v
  | None => Raise (AttributeError name)
  end.

Definition ratio_names : list string :=
  ["roe"; "roa"; "net_profit_margin"; "gross_profit_margin"; "current_ratio";
   "quick_ratio"; "cash_ratio"; "debt_to_equity"; "debt_to_assets";
   "equity_multiplier"; "asset_turnover"; "inventory_turnover";
   "receivables_turnover"; "pe_ratio"; "pb_ratio"; "market_cap"].

(** [_empty_ratios]: [setattr(r, k, 0.0)] for every name. *)
Definition _empty_ratios : gmap string F :=
  foldl (fun r k => <[k := Fin 0]> r) ∅ ratio_names.

(** The nested helper
    [get_val(key, default=0.0) = float(info.get(key, default) or 0.0)]. *)
Definition get_val (info : gmap string PyVal) (key : string) (dflt : F) : Exc F :=
  py_float (py_or (default (PyNum dflt) (info !! key)) (PyNum (Fin 0))).

Section Analyzer.

(** [self.data_manager.get_financials]; [None] when the fetch failed. *)
Variable get_financials : string -> option Financials.

Definition calculate_ratios (symbol : string) : Exc (gmap string F) :=
  match get_financials symbol with
  | None => Ok _empty_ratios
  | Some data =>
      match info data with
      | None => Ok _empty_ratios
      | Some info =>
          if decide (info = ∅) then Ok _empty_ratios else
          try! roe := get_val info "returnOnEquity" (Fin 0) in
          try! roa := get_val info "returnOnAssets" (Fin 0) in
          try! npm := get_val info "profitMargins" (Fin 0) in
          try! gpm := get_val info "grossMargins" (Fin 0) in
          try! current_ratio := get_val info "currentRatio" (Fin 0) in
          try! quick_ratio := get_val info "quickRatio" (Fin 0) in
          try! de_cond := get_val info "debtToEquity" (Fin 0) in
          try! debt_to_equity :=
            (if truthy de_cond
             then try! de := get_val info "debtToEquity" (Fin 0) in
                  Ok (de / Fin 100)%F
             else Ok (Fin 0)) in
          try! pe_ratio := get_val info "trailingPE" (Fin 0) in
          try! pb_ratio := get_val info "priceToBook" (Fin 0) in
          try! market_cap := get_val info "marketCap" (Fin 0) in
          Ok (list_to_map
                [ ("roe", (roe * Fin 100)%F);
                  ("roa", (roa * Fin 100)%F);
                  ("net_profit_margin", (npm * Fin 100)%F);
                  ("gross_profit_margin", (gpm * Fin 100)%F);
                  ("current_ratio", current_ratio);
                  ("quick_ratio", quick_ratio);
                  ("cash_ratio", Fin 0);
                  ("debt_to_equity", debt_to_equity);
                  ("debt_to_assets", Fin 0);
                  ("equity_multiplier", Fin 0);
                  ("asset_turnover", Fin 0);
                  ("inventory_turnover", Fin 0);
                  ("receivables_turnover", Fin 0);
                  ("pe_ratio", pe_ratio);
                  ("pb_ratio", pb_ratio);
                  ("market_cap", market_cap) ])
      end
  end.

(** One entry of the scan's result list. *)
Record ScoreRecord : Type := mkScore {
  sr_symbol : string;
  sr_score : Z;
  sr_pe_ratio : F;
  sr_roe : F
}.

Definition bump (cond : bool) (score : Z) : Z :=
  if cond then (score + 1)%Z else score.

(** The loop body of [find_undervalued_stocks] for one symbol. *)
Definition scan_one (results : list ScoreRecord) (sym : string)
  : Exc (list ScoreRecord) :=
  try! r := calculate_ratios sym in
  let score := 0%Z in
  try! pe := getattr r "pe_ratio" in
  let score := bump ((Fin 0 <? pe)%F && (pe <? Fin 25)%F) score in
  try! pb := getattr r "pb_ratio" in
  let score := bump ((Fin 0 <? pb)%F && (pb <? Fin 5)%F) score in
  try! roe := getattr r "roe" in
  let score := bump (roe >? Fin 15)%F score in
  try! de := getattr r "debt_to_equity" in
  let score := bump (de <? Fin 1)%F score in
  if (score >=? 3)%Z
  then
    try! pe_ratio := getattr r "pe_ratio" in
    try! roe := getattr r "roe" in
    Ok (results ++ [mkScore sym score pe_ratio roe])
  else Ok results.

Fixpoint scan (results : list ScoreRecord) (candidates : list string)
  : Exc (list ScoreRecord) :=
  match candidates with
  | [] => Ok results
  | sym :: rest =>
      try! results := scan_one results sym in
      scan results rest
  end.

(** [results.sort(key=lambda x: x['score'], reverse=True)]: Python's sort
    is stable, also with [reverse=True]; an element goes behind the ones
    whose key is at least its own. *)
Fixpoint insert_desc (x : ScoreRecord) (l : list ScoreRecord) : list ScoreRecord :=
  match l with
  | [] => [x]
  | y :: l' =>
      if (sr_score x <=? sr_score y)%Z then y :: insert_desc x l'
      else x :: l
  end.

Definition sort_desc (l : list ScoreRecord) : list ScoreRecord :=
  foldl (fun sorted x => insert_desc x sorted) [] l.

(** [results[:limit]] for a Python int. *)
Definition slice_to {A} (limit : Z) (l : list A) : list A :=
  if (0 <=? limit)%Z then take (Z.to_nat limit) l
  else take (Z.to_nat (Z.of_nat (length l) + limit)) l.

(** [find_undervalued_stocks] over an arbitrary candidate list. *)
Definition find_undervalued_in (candidates : list string) (limit : Z)
  : Exc (list ScoreRecord) :=
  try! results := scan [] candidates in
  Ok (slice_to limit (sort_desc results)).

Definition candidates : list string :=
  [ "AAPL"; "MSFT"; "GOOGL"; "AMZN"; "NVDA"; "META"; "TSLA"; "BRK-B"; "V"; "UNH";
    "JNJ"; "XOM"; "JPM"; "PG"; "MA"; "LLY"; "HD"; "CVX"; "MRK"; "ABBV";
    "PEP"; "KO"; "AVGO"; "COST"; "TMO"; "MCD"; "CSCO"; "ACN"; "WMT"; "PFE";
    "BAC"; "LIN"; "CRM"; "ABT"; "DIS"; "AMD"; "DHR"; "TXN"; "NEE"; "PM";
    "WFC"; "ADBE"; "NKE"; "UPS"; "RTX"; "BMY"; "T"; "LOW"; "INTC"; "MS";
    "QCOM"; "HON"; "IBM"; "UNP"; "INTU"; "SBUX"; "GE"; "EL"; "DE"; "GS";
    "AMAT"; "C"; "CAT"; "PLD"; "BLK"; "BA"; "SCHW"; "CVS"; "AMT"; "MMC";
    "COP"; "LMT"; "ADP"; "AXP"; "MDT"; "CI"; "GILD"; "ISRG"; "TJX"; "VRTX";
    "TGT"; "MO"; "ZTS"; "EOG"; "BDX"; "SO"; "FI"; "SPGI"; "REGN"; "NOW";
    "SYK"; "CB"; "BKNG"; "DUK"; "LRCX"; "ADI"; "Z"; "UBER"; "ABNB"; "PANW" ].

Definition find_undervalued_stocks (limit : Z) : Exc (list ScoreRecord) :=
  find_undervalued_in candidates limit.

End Analyzer.

End Analysis.

(* ===================================================================== *)
(** ** Inference features (api.py and huggingface_app.py)                 *)
(* ===================================================================== *)

(** The [try] body of [calculate_features]: the derived columns, then
    [df[[...]].iloc[[-1]]], which is an IndexError on an empty frame. *)
Definition calculate_features_body (df : list Bar) : Exc FeatureRow :=
  match df with
  | [] => Raise (LibraryError "IndexError")
  | _ => Ok (feature_row df (length df - 1))
  end.

(** [calculate_features]: any exception of the body is swallowed and an
    empty frame, here [None], is returned. *)
Definition calculate_features (df : list Bar) : option FeatureRow :=
  match calculate_features_body df with
  | Ok row => Some row
  | Raise _ => None
  end.

(* ===================================================================== *)
(** ** Direction prediction (api.py, [predict])                           *)
(* ===================================================================== *)

Module Api.

Record CustomModel : Type := mkCustom {
  cm_prediction : string;
  cm_confidence : F;
  cm_model_type : string
}.

Record Prediction : Type := mkPrediction {
  p_symbol : string;
  p_prediction : string;
  p_current_price : F;
  p_sma_20 : F;
  p_custom_model : CustomModel
}.

(** [float(df['Close'].iloc[-1])] *)
Definition last_close (df : list Bar) : F := default NaN (iloc_last (Close df)).

(** [float(df['Close'].rolling(20).mean().iloc[-1]) if len(df) > 20 else last_close] *)
Definition sma20 (df : list Bar) : F :=
  if (20 <? length df)%nat
  then default NaN (iloc_last (rolling_mean 20 (Close df)))
  else last_close df.

Definition baseline (df : list Bar) : string :=
  if (last_close df >? sma20 df)%F then "UP" else "DOWN".

Section Predict.

(** The data manager, the two artifacts loaded at start-up ([None] when
    loading failed) and the feature computation. *)
Variable get_stock_data : string -> string -> list Bar.
Variable custom_model : option (FeatureRow -> Exc (list F)).
Variable scaler : option (FeatureRow -> Exc FeatureRow).
Variable features_of : list Bar -> option FeatureRow.

(** The body of the [try] (lines 109-122) as a transformer of the two
    locals [custom_pred] and [custom_conf]; an exception leaves them as
    they are when it is raised. *)
Definition custom_try (model : FeatureRow -> Exc (list F))
    (scale : FeatureRow -> Exc FeatureRow) (df : list Bar)
    (locals : string * F) : string * F :=
  if (negb (length df =? 0)%nat && (60 <? length df)%nat)%bool then
    match features_of df with
    | None => locals
    | Some features =>
        let features := fillna features in
        match scale features with
        | Raise _ => locals
        | Ok features_scaled =>
            match model features_scaled with
            | Raise _ => locals
            | Ok prob =>
                match prob !! 1%nat with
                | None => locals
                | Some p1 =>
                    let custom_pred := if (p1 >? Fin (1 # 2))%F then "UP" else "DOWN" in
                    if String.eqb custom_pred "UP"
                    then (custom_pred, p1)
                    else match prob !! 0%nat with
                         | None => (custom_pred, locals.2)
                         | Some p0 => (custom_pred, p0)
                         end
                end
            end
        end
    end
  else locals.

Definition predict_with (symbol : string) : Exc Prediction :=
  let df := get_stock_data symbol "1y" in
  match df with
  | [] => Raise (HTTPException 404 "Stock data not found")
  | _ =>
      let locals := ("Insufficient Data", Fin 0) in
      let locals :=
        match custom_model, scaler with
        | Some model, Some scale => custom_try model scale df locals
        | _, _ => locals
        end in
      Ok {| p_symbol := symbol;
            p_prediction := baseline df;
            p_current_price := last_close df;
            p_sma_20 := sma20 df;
            p_custom_model := mkCustom locals.1 locals.2 "AdaBoost" |}
  end.

End Predict.

(** [predict] with the module's own [calculate_features]. *)
Definition predict get_stock_data custom_model scaler : string -> Exc Prediction :=
  predict_with get_stock_data custom_model scaler calculate_features.

End Api.

(* ===================================================================== *)
(** ** The custom-model block of huggingface_app.py (lines 127-137)       *)
(* ===================================================================== *)

Module Hf.

(** No [try] here: an exception of the scaler or the model propagates. *)
Definition custom_block (adaboost : option (FeatureRow -> Exc (list F)))
    (scaler : option (FeatureRow -> Exc FeatureRow)) (df : list Bar)
  : Exc (string * F) :=
  let locals := ("Insufficient Data", Fin 0) in
  match adaboost, scaler with
  | Some model, Some scale =>
      if (60 <? length df)%nat then
        match calculate_features df with
        | None => Ok locals
        | Some feats =>
            let feats := fillna feats in
            try! feats_scaled := scale feats in
            try! prob := model feats_scaled in
            match prob !! 1%nat with
            | None => Raise (LibraryError "IndexError")
            | Some p1 =>
                let custom_pred := if (p1 >? Fin (1 # 2))%F then "UP" else "DOWN" in
                if String.eqb custom_pred "UP"
                then Ok (custom_pred, p1)
                else match prob !! 0%nat with
                     | None => Raise (LibraryError "IndexError")
                     | Some p0 => Ok (custom_pred, p0)
                     end
            end
        end
      else Ok locals
  | _, _ => Ok locals
  end.

End Hf.

(* ===================================================================== *)
(** ** Sentiment aggregation (api.py [get_sentiment], lines 201-214;      *)
(**    huggingface_app.py [analyze_sentiment], lines 91-103)              *)
(* ===================================================================== *)

Module Sentiment.

(** One result of the classifier pipeline. *)
Record Classified : Type := mkClassified {
  label : string;
  score : Q
}.

Record AnalyzedNews : Type := mkNews {
  n_title : string;
  n_label : string;
  n_score : Q
}.

(** [result['score'] if result['label'] == 'positive'
     else -result['score'] if result['label'] == 'negative' else 0] *)
Definition signed_score (result : Classified) : Q :=
  if String.eqb (label result) "positive" then score result
  else if String.eqb (label result) "negative" then - score result
  else 0.

(** The loop [for headline, result in zip(headlines, results)]. *)
Definition aggregate_loop (headlines : list string) (results : list Classified)
  : Q * list AnalyzedNews :=
  foldl (fun '(sentiment_score, analyzed_news) '(headline, result) =>
           (sentiment_score + signed_score result,
            analyzed_news ++ [mkNews headline (label result) (score result)]))
        (0, []) (zip headlines results).

Definition overall_of (sentiment_score : Q) : string :=
  if Qlt_b (1 # 10) sentiment_score then "Positive"
  else if Qlt_b sentiment_score (- (1 # 10)) then "Negative"
  else "Neutral".

Record SentimentResult : Type := mkSentiment {
  overall : string;
  sentiment_score : Q;
  news : list AnalyzedNews
}.

(** Steps 3-4 once the headlines are there. *)
Definition aggregate (headlines : list string) (results : list Classified)
  : SentimentResult :=
  let '(sentiment_score, analyzed_news) := aggregate_loop headlines results in
  mkSentiment (overall_of sentiment_score) sentiment_score analyzed_news.

(** A news item: [title], [content.title] and [summary], each possibly
    missing or empty. *)
Record NewsItem : Type := mkItem {
  item_title : option string;
  item_content_title : option string;
  item_summary : option string
}.

Definition nonempty (s : option string) : option string :=
  match s with
  | Some "" => None
  | _ => s
  end.

(** [item.get('title') or item.get('content', {}).get('title') or item.get('summary')] *)
Definition title_of (item : NewsItem) : option string :=
  match nonempty (item_title item) with
  | Some t => Some t
  | None =>
      match nonempty (item_content_title item) with
      | Some t => Some t
      | None => nonempty (item_summary item)
      end
  end.

Definition extract_headlines (news_items : list NewsItem) : list string :=
  omap title_of (take 5 news_items).

(** [analyze_sentiment(symbol)] of huggingface_app.py; [None] is its
    "no data" answer, also given when anything raises. *)
Definition analyze_sentiment
    (pipe : option (list string -> Exc (list Classified)))
    (ticker_news : string -> list NewsItem) (symbol : string)
  : option SentimentResult :=
  match pipe with
  | None => None
  | Some pipe =>
      let news_items := ticker_news symbol in
      let news_items := match news_items with [] => ticker_news "SPY" | _ => news_items end in
      let headlines := extract_headlines news_items in
      match headlines with
      | [] => None
      | _ =>
          match pipe headlines with
          | Raise _ => None
          | Ok results => Some (aggregate headlines results)
          end
      end
  end.

(** What [get_sentiment] of api.py answers. *)
Inductive SentimentResponse : Type :=
| SentimentError (error : string)
| NoNews                              (* overall "Neutral", news [] *)
| Analysed (result : SentimentResult).

(** [get_sentiment(symbol)] of api.py: the same aggregation as
    [analyze_sentiment], with its own answers when there is no model, no
    news or no headline, and the error text when the pipeline raises. *)
Definition get_sentiment
    (sentiment_pipe : option (list string -> Exc (list Classified)))
    (ticker_news : string -> list NewsItem) (symbol : string)
  : SentimentResponse :=
  match sentiment_pipe with
  | None => SentimentError "Sentiment model not loaded."
  | Some pipe =>
      let news_items := ticker_news symbol in
      let news_items := match news_items with [] => ticker_news "SPY" | _ => news_items end in
      match news_items with
      | [] => NoNews
      | _ =>
          let headlines := extract_headlines news_items in
          match headlines with
          | [] => NoNews
          | _ =>
              match pipe headlines with
              | Raise e =>
                  SentimentError
                    match e with
                    | ValueError m | TypeError m | AttributeError m
                    | HTTPException _ m | LibraryError m => m
                    end
              | Ok results => Analysed (aggregate headlines results)
              end
          end
      end
  end.

End Sentiment.

(* ===================================================================== *)
(** ** The data layer (data_layer.py)                                     *)
(* ===================================================================== *)

Module DataLayer.

(** A frame as the provider hands it over: the index and the named
    columns. *)
Record Frame : Type := mkFrame {
  index : list string;
  columns : gmap string (list F)
}.

(** [pd.DataFrame()] *)
Definition empty_frame : Frame := mkFrame [] ∅.

(** [df.empty]: an axis of length 0. *)
Definition is_empty (df : Frame) : bool :=
  (length (index df) =? 0)%nat || (size (columns df) =? 0)%nat.

Definition required_cols : list string := ["Open"; "High"; "Low"; "Close"; "Volume"].

(** [col in history.columns] *)
Definition has_column (df : Frame) (col : string) : bool :=
  bool_decide (is_Some (columns df !! col)).

(** [get_stock_data]: the provider's frame if it has rows and all of the
    required columns, the empty frame otherwise, also when the provider
    raises. *)
Definition get_stock_data (history : string -> string -> Exc Frame)
    (symbol period : string) : Frame :=
  match history symbol period with
  | Raise _ => empty_frame
  | Ok h =>
      if is_empty h then empty_frame
      else if forallb (has_column h) required_cols then h
      else empty_frame
  end.

(** [get_financials]: the four statements, or [None] when the provider
    raises. *)
Definition get_financials {Statements : Type}
    (fetch : string -> Exc Statements) (symbol : string) : option Statements :=
  match fetch symbol with
  | Ok data => Some data
  | Raise _ => None
  end.

End DataLayer.

(* ===================================================================== *)
(** ** Comparing companies and the [/analyze] endpoint                    *)
(* ===================================================================== *)

Module Companies.

Import Analysis.


Section Compare.

Variable get_financials : string -> option Financials.





End Compare.

End Companies.

(* ===================================================================== *)
(** ** The basic signal of huggingface_app.py and of inference.py         *)
(* ===================================================================== *)

(** [abs(x)] *)
Definition fabs (x : F) : F :=
  match x with
  | Fin q => Fin (Qabs q)
  | PInf | NInf => PInf
  | NaN => NaN
  end.

Module HfBasic.

(** huggingface_app.py, lines 123-125: no substitute for a short series. *)
Definition last_close (df : list Bar) : F := default NaN (iloc_last (Close df)).

Definition sma20 (df : list Bar) : F :=
  default NaN (iloc_last (rolling_mean 20 (Close df))).


End HfBasic.

Module Inference.

(** What [predict] of inference.py prints. *)
Inductive Output : Type :=
| NoData                                   (* {"error": "No data"} *)
| Result (symbol : string) (current_price : F) (prediction : string)
         (confidence : string) (reason : string).

Definition predict (get_stock_data : string -> string -> list Bar)
    (symbol : string) : Output :=
  let df := get_stock_data symbol "3mo" in
  match df with
  | [] => NoData
  | _ =>
      let last_close := default NaN (iloc_last (Close df)) in
      let sma20 := default NaN (iloc_last (rolling_mean 20 (Close df))) in
      let prediction := if (last_close >? sma20)%F then "UP" else "DOWN" in
      let confidence :=
        if (fabs (last_close - sma20) / last_close >? Fin (2 # 100))%F
        then "HIGH" else "LOW" in
      Result symbol last_close prediction confidence
        ("Price is " +:+ (if String.eqb prediction "UP" then "above" else "below")
         +:+ " 20-day SMA")
  end.

End Inference.

(* ===================================================================== *)
(** ** The back-test (evaluation.py)                                      *)
(* ===================================================================== *)

Module Evaluation.

(** [np.where(close > sma, 1, 0)] *)
Definition signal (close sma : list F) : list Z :=
  zip_with (fun c s => if (c >? s)%F then 1%Z else 0%Z) close sma.

(** [s.cumprod()]: NaN cells are skipped by the running product and stay
    NaN in the result. *)
Fixpoint cumprod_from (acc : F) (xs : list F) : list F :=
  match xs with
  | [] => []
  | x :: rest =>
      if is_nan x then NaN :: cumprod_from acc rest
      else (acc * x)%F :: cumprod_from (acc * x)%F rest
  end.

Definition cumprod (xs : list F) : list F := cumprod_from (Fin 1) xs.

(** [s.iloc[-1]], an IndexError on an empty series. *)
Definition iloc_last_exn (xs : list F) : Exc F :=
  match last xs with
  | Some x => Ok x
  | None => Raise (LibraryError "IndexError")
  end.

(** [(1 + s).cumprod().iloc[-1]] *)
Definition compounded (returns : list F) : Exc F :=
  iloc_last_exn (cumprod (map (fun r => (Fin 1 + r)%F) returns)).

(** The four figures the function prints. *)
Record Report : Type := mkReport {
  market_return : F;      (* per cent *)
  strategy_return : F;    (* per cent *)
  train_ret : F;          (* fraction *)
  val_ret : F             (* fraction *)
}.

Definition SMA20 (df : list Bar) : list F := rolling_mean 20 (Close df).
Definition Signal (df : list Bar) : list Z := signal (Close df) (SMA20 df).

(** [df['Signal'].shift()]: the integer column becomes a float column
    with NaN in the first row. *)
Definition Position (df : list Bar) : list F :=
  shift (map (fun z => Fin (inject_Z z)) (Signal df)).

Definition Daily_Return (df : list Bar) : list F := pct_change (Close df).

Definition Strategy_Return (df : list Bar) : list F :=
  zip_with mul (Position df) (Daily_Return df).

(** [int(len(df) * 0.8)]: the product with the double nearest to 0.8 is
    never below [4 n / 5], so the truncation is the floor of [4 n / 5]. *)
Definition split_idx (df : list Bar) : nat := (4 * length df / 5)%nat.

(** [evaluate_strategy]: [None] stands for the "No data." message. *)
Definition evaluate_strategy (get_stock_data : string -> string -> list Bar)
    (symbol : string) : Exc (option Report) :=
  let df := get_stock_data symbol "2y" in
  match df with
  | [] => Ok None
  | _ =>
      try! cum_market := compounded (Daily_Return df) in
      try! cum_strategy := compounded (Strategy_Return df) in
      let total_market_return := ((cum_market - Fin 1) * Fin 100)%F in
      let total_strategy_return := ((cum_strategy - Fin 1) * Fin 100)%F in
      let train := take (split_idx df) (Strategy_Return df) in
      let val := drop (split_idx df) (Strategy_Return df) in
      try! train_cum := compounded train in
      let train_ret := (train_cum - Fin 1)%F in
      try! val_cum := compounded val in
      let val_ret := (val_cum - Fin 1)%F in
      Ok (Some (mkReport total_market_return total_strategy_return train_ret val_ret))
  end.

End Evaluation.

(* ===================================================================== *)
(** ** Predicates used in the statements                                  *)
(* ===================================================================== *)

(** A cell that is a number and not negative. *)
Definition nonneg_fin (x : F) : Prop :=
  match x with Fin q => 0 <= q | _ => False end.

(** A cell that is a number or NaN, never an infinity. *)
Definition fin_or_nan (x : F) : Prop :=
  match x with Fin _ | NaN => True | _ => False end.


(** The label as the specification words it: 1 if the bar has a successor
    that closes strictly higher, 0 in every other case. *)
Definition label_of (df : list Bar) (t : nat) : Z :=
  match df !! t, df !! S t with
  | Some b, Some b' => if Qlt_b (bar_close b) (bar_close b') then 1%Z else 0%Z
  | _, _ => 0%Z
  end.

(** The scan as the specification words it. *)
Module ScanSpec.
Import Analysis.

(** The attribute of a ratio record, for a name that is populated. *)
Definition attr (r : gmap string F) (name : string) : F :=
  default NaN (r !! name).

(** The four criteria, in the order of the text. *)
Definition criteria (r : gmap string F) : list bool :=
  [ (Fin 0 <? attr r "pe_ratio")%F && (attr r "pe_ratio" <? Fin 25)%F;
    (Fin 0 <? attr r "pb_ratio")%F && (attr r "pb_ratio" <? Fin 5)%F;
    (attr r "roe" >? Fin 15)%F;
    (attr r "debt_to_equity" <? Fin 1)%F ].

(** The score is the number of satisfied criteria. *)
Definition score_of (r : gmap string F) : Z :=
  Z.of_nat (length (List.filter id (criteria r))).

(** The entry of a candidate, if it is kept: score at least 3. *)
Definition entry_of (get_financials : string -> option Financials)
    (sym : string) : option ScoreRecord :=
  match calculate_ratios get_financials sym with
  | Ok r =>
      if (3 <=? score_of r)%Z
      then Some (mkScore sym (score_of r) (attr r "pe_ratio") (attr r "roe"))
      else None
  | Raise _ => None
  end.

(** The kept candidates, in scan order. *)
Definition kept (get_financials : string -> option Financials)
    (candidates : list string) : list ScoreRecord :=
  omap (entry_of get_financials) candidates.

(** Entries with a given score, in the order of the list. *)
Definition with_score (s : Z) (l : list ScoreRecord) : list ScoreRecord :=
  List.filter (fun x => (sr_score x =? s)%Z) l.

(** Score descending. *)
Definition score_ge (a b : ScoreRecord) : Prop := (sr_score b <= sr_score a)%Z.

(** A ratio record whose every value is 0.0. *)
Definition all_zero (r : gmap string F) : Prop :=
  forall k v, r !! k = Some v -> exists q, v = Fin q /\ q == 0.

(** A raw value that is absent, null or zero. *)
Definition missing (raw : option PyVal) : Prop :=
  raw = None \/ raw = Some PyNone \/ exists q, raw = Some (PyNum (Fin q)) /\ q == 0.

End ScanSpec.

(** A step of the custom-model prediction raises: the feature
    computation (which then hands back an empty frame), the scaler, the
    model, or the read of the class-1 probability. *)
Definition custom_step_raises (features_of : list Bar -> option FeatureRow)
    (model : FeatureRow -> Exc (list F)) (scale : FeatureRow -> Exc FeatureRow)
    (df : list Bar) : Prop :=
  match features_of df with
  | None => True
  | Some features =>
      match scale (fillna features) with
      | Raise _ => True
      | Ok features_scaled =>
          match model features_scaled with
          | Raise _ => True
          | Ok prob => prob !! 1%nat = None
          end
      end
  end.

(** The sentinel of the custom model. *)
Definition insufficient_data : Api.CustomModel :=
  Api.mkCustom "Insufficient Data" (Fin 0) "AdaBoost".

(** The model's call from the two class probabilities. *)
Definition model_call (p0 p1 : F) : Api.CustomModel :=
  if (p1 >? Fin (1 # 2))%F
  then Api.mkCustom "UP" p1 "AdaBoost"
  else Api.mkCustom "DOWN" p0 "AdaBoost".

(** The aggregate as the specification words it: the sum, over the
    classified headlines, of the signed confidences. *)
Definition sum_signed (results : list Sentiment.Classified) : Q :=
  foldr Qplus 0 (map Sentiment.signed_score results).

(* ===================================================================== *)
(** ** Concrete inputs                                                    *)
(* ===================================================================== *)

(** [n] sessions that close one higher each day, from 100, on a constant
    volume: no session ever loses. *)
Definition rising_bars (n : nat) : list Bar :=
  map (fun t => let c := inject_Z (100 + Z.of_nat t) in mkBar c c c c 1000)
      (seq 0 n).

(** [n] sessions that close alternately at 101 and 100. *)
Definition zigzag_bars (n : nat) : list Bar :=
  map (fun t => let c := if Nat.even t then 101 else 100 in mkBar c c c c 1000)
      (seq 0 n).

(** A provider that knows no symbol, one that answers every symbol with an
    empty payload, and one that answers every symbol with the same healthy
    figures: P/E 10, P/B 2, return on equity 20 %, no debt figure. *)
Definition no_financials : string -> option Analysis.Financials :=
  fun _ => None.


Definition healthy_info : gmap string Analysis.PyVal :=
  list_to_map
    [ ("trailingPE", Analysis.PyNum (Fin 10));
      ("priceToBook", Analysis.PyNum (Fin 2));
      ("returnOnEquity", Analysis.PyNum (Fin (1 # 5)));
      ("debtToEquity", Analysis.PyNone) ].

Definition healthy : string -> option Analysis.Financials :=
  fun _ => Some (Analysis.mkFinancials (Some healthy_info)).

(** Artifacts: a scaler that leaves the row alone, one that rejects it,
    and a model that gives class 1 the probability 0.7. *)
Definition identity_scaler : FeatureRow -> Exc FeatureRow := fun row => Ok row.

Definition broken_scaler : FeatureRow -> Exc FeatureRow :=
  fun _ => Raise (ValueError "X has 5 features, but StandardScaler is expecting 4 features").

Definition bullish_model : FeatureRow -> Exc (list F) :=
  fun _ => Ok [Fin (3 # 10); Fin (7 # 10)].



(* ===================================================================== *)
(** ** Predicates and inputs of the further properties                    *)
(* ===================================================================== *)

(** Steps 1 to 5 of [build_model] (fetch and prepare, split, scale, fit,
    evaluate) as one computation: the fitted model, its scaler and the
    held-out accuracy, or the first exception. *)
Module TrainingSpec.

Section Fit.

Variables Model Scaler : Type.
Variable history : string -> string -> list Bar.
Variable train_test_split :
  XFrame -> ySeries -> Exc ((XFrame * XFrame) * (ySeries * ySeries)).
Variable scaler_fit : XFrame -> Exc Scaler.
Variable scaler_transform : Scaler -> XFrame -> Exc XFrame.
Variable model_fit : XFrame -> ySeries -> Exc Model.
Variable model_predict : Model -> XFrame -> Exc (list Z).
Variable accuracy_score : ySeries -> list Z -> Exc F.

Definition fit_and_evaluate : Exc (Model * Scaler * F) :=
  try! (X, y) := prepare_data_of (history "SPY" "5y") in
  try! ((X_train, X_test), (y_train, y_test)) := train_test_split X y in
  try! scaler := scaler_fit X_train in
  try! X_train_scaled := scaler_transform scaler X_train in
  try! X_test_scaled := scaler_transform scaler X_test in
  try! model := model_fit X_train_scaled y_train in
  try! preds := model_predict model X_test_scaled in
  try! acc := accuracy_score y_test preds in
  Ok (model, scaler, acc).

End Fit.

End TrainingSpec.

(** Stand-ins for the training collaborators: 60 alternating sessions, a
    split after the eighth row, a scaler and a model without parameters,
    predictions that are all 1. *)
Definition toy_history : string -> string -> list Bar := fun _ _ => zigzag_bars 60.

Definition toy_table : XFrame * ySeries :=
  match prepare_data_of (zigzag_bars 60) with
  | Ok table => table
  | Raise _ => ([], [])
  end.

Definition toy_split (X : XFrame) (y : ySeries)
  : Exc ((XFrame * XFrame) * (ySeries * ySeries)) :=
  Ok ((take 8 X, drop 8 X), (take 8 y, drop 8 y)).

Definition toy_predict (_ : unit) (X : XFrame) : Exc (list Z) :=
  Ok (map (fun _ => 1%Z) X).

Definition toy_accuracy (_ : ySeries) (_ : list Z) : Exc F := Ok (Fin (1 # 2)).

Definition only_model_writable (path : string) : bool :=
  String.eqb path "adaboost_model.joblib".

(** A raw provider value under [float(v or 0.0)]: a number that is not
    zero stays, everything else (absent, null, zero) is 0.0. *)
Definition normalized (raw : option Analysis.PyVal) : F :=
  match raw with
  | Some (Analysis.PyNum x) => if truthy x then x else Fin 0
  | _ => Fin 0
  end.

(** The ten provider keys the normaliser reads. *)
Definition raw_keys : list string :=
  ["returnOnEquity"; "returnOnAssets"; "profitMargins"; "grossMargins";
   "currentRatio"; "quickRatio"; "debtToEquity"; "trailingPE"; "priceToBook";
   "marketCap"].

(** The six ratios the normaliser does not compute. *)
Definition uncomputed_ratios : list string :=
  ["cash_ratio"; "debt_to_assets"; "equity_multiplier"; "asset_turnover";
   "inventory_turnover"; "receivables_turnover"].

(** A payload with figures in the provider's conventions: fractions for
    returns and margins, per cent for debt to equity. *)
Definition sample_info : gmap string Analysis.PyVal :=
  list_to_map
    [ ("returnOnEquity", Analysis.PyNum (Fin (3 # 20)));
      ("profitMargins", Analysis.PyNum (Fin (1 # 4)));
      ("debtToEquity", Analysis.PyNum (Fin 150));
      ("trailingPE", Analysis.PyNum (Fin 30));
      ("priceToBook", Analysis.PyNone);
      ("longName", Analysis.PyNone) ].

Definition sample_provider : string -> option Analysis.Financials :=
  fun _ => Some (Analysis.mkFinancials (Some sample_info)).

(** A payload that has entries, none of them a figure. *)
Definition figureless_info : gmap string Analysis.PyVal :=
  list_to_map [ ("trailingPE", Analysis.PyNone); ("marketCap", Analysis.PyNum (Fin 0));
                ("longName", Analysis.PyNone) ].

Definition figureless_provider : string -> option Analysis.Financials :=
  fun _ => Some (Analysis.mkFinancials (Some figureless_info)).



(** A model that gives class 1 the probability 0.2. *)
Definition bearish_model : FeatureRow -> Exc (list F) :=
  fun _ => Ok [Fin (8 # 10); Fin (2 # 10)].

(** A provider frame with two rows and all of the required columns. *)
Definition complete_frame : DataLayer.Frame :=
  DataLayer.mkFrame ["2024-01-02"; "2024-01-03"]
    (list_to_map
       [ ("Open", [Fin 100; Fin 101]); ("High", [Fin 102; Fin 103]);
         ("Low", [Fin 99; Fin 100]); ("Close", [Fin 101; Fin 102]);
         ("Volume", [Fin 1000; Fin 1200]); ("Dividends", [Fin 0; Fin 0]) ]).

(** A classifier score is a probability. *)
Definition score_in_unit (c : Sentiment.Classified) : Prop :=
  0 <= Sentiment.score c <= 1.

(** News items: one with a title, one with only a nested title, one with
    only a summary, one with nothing usable. *)
Definition sample_news : list Sentiment.NewsItem :=
  [ Sentiment.mkItem (Some "Shares jump on record profit") None (Some "ignored");
    Sentiment.mkItem None (Some "Regulator opens probe") None;
    Sentiment.mkItem (Some "") None (Some "Annual meeting set for May");
    Sentiment.mkItem None None None ].

(** A classifier that calls every headline positive at 0.9. *)
Definition upbeat_pipe : list string -> Exc (list Sentiment.Classified) :=
  fun headlines => Ok (map (fun _ => Sentiment.mkClassified "positive" (9 # 10)) headlines).

(** A cell that is a number equal to [q]. *)
Definition is_number (q : Q) (x : F) : Prop :=
  exists p, x = Fin p /\ p == q.

(** Every close of the frame is different from 0. *)
Definition closes_nonzero (df : list Bar) : Prop :=
  Forall (fun b => ~ bar_close b == 0) df.

(* ===================================================================== *)
(** * Properties                                                          *)
(* ===================================================================== *)

(** ** Facts about the float model *)

Lemma Qlt_b_spec (a b : Q) : Qlt_b a b = true <-> a < b.
Proof. unfold Qlt_b, Qlt. apply Z.ltb_lt. Qed.

Lemma Qlt_b_false (a b : Q) : Qlt_b a b = false <-> b <= a.
Proof. unfold Qlt_b, Qle. rewrite Z.ltb_ge. reflexivity. Qed.

Lemma Qzero_b_spec (q : Q) : Qzero_b q = true <-> q == 0.
Proof.
  unfold Qzero_b, Qeq. cbn. rewrite Z.eqb_eq, Z.mul_1_r. reflexivity.
Qed.

Lemma Qzero_b_false (q : Q) : Qzero_b q = false <-> ~ q == 0.
Proof.
  rewrite <- Qzero_b_spec. destruct (Qzero_b q); intuition congruence.
Qed.

Lemma Qzero_b_pos (q : Q) : 0 < q -> Qzero_b q = false.
Proof. intros H. apply Qzero_b_false. intros E. rewrite E in H. lra. Qed.

Lemma sum_nonneg (xs : list F) :
  Forall nonneg_fin xs -> exists s, Series.sum xs = Fin s /\ 0 <= s.
Proof.
  induction 1 as [|x xs Hx _ IH].
  - exists 0. split; [reflexivity | lra].
  - change (Series.sum (x :: xs)) with (add x (Series.sum xs)).
    destruct IH as (s & -> & Hs).
    destruct x as [q| | |]; cbn in Hx; try contradiction.
    exists (q + s). split; [reflexivity | lra].
Qed.

Lemma window_Forall (P : F -> Prop) w t xs :
  Forall P xs -> Forall P (window w t xs).
Proof.
  intros H. unfold window. apply Forall_take, Forall_drop, H.
Qed.

Lemma lookup_rolling_mean w xs t :
  rolling_mean w xs !! t =
    if decide (t < length xs)%nat then Some (mean_at w xs t) else None.
Proof.
  unfold rolling_mean. rewrite list_lookup_imap.
  case_decide as Hlt.
  - destruct (lookup_lt_is_Some_2 xs t Hlt) as [x ->]. reflexivity.
  - rewrite lookup_ge_None_2; [reflexivity | lia].
Qed.

Lemma length_rolling_mean w xs : length (rolling_mean w xs) = length xs.
Proof. unfold rolling_mean. apply length_imap. Qed.

(** The mean over a full window of non-negative numbers is a non-negative
    number; before the window fills it is NaN. *)
Lemma mean_at_nonneg (w : nat) xs t :
  (0 < w)%nat -> Forall nonneg_fin xs ->
  if (t + 1 <? w)%nat then mean_at w xs t = NaN
  else exists q, mean_at w xs t = Fin q /\ 0 <= q.
Proof.
  intros Hw Hxs. unfold mean_at. destruct (t + 1 <? w)%nat; [reflexivity|].
  destruct (sum_nonneg (window w t xs)) as (s & -> & Hs).
  { apply window_Forall, Hxs. }
  assert (Hpos : 0 < inject_Z (Z.of_nat w)).
  { change 0 with (inject_Z 0). rewrite <- Zlt_Qlt. lia. }
  cbn. rewrite (Qzero_b_pos _ Hpos).
  eexists; split; [reflexivity|].
  apply Qle_shift_div_l; [exact Hpos | lra].
Qed.

(** ** The RSI columns *)

Lemma Close_fin (df : list Bar) : Forall (fun x => exists q, x = Fin q) (Close df).
Proof. unfold Close. apply Forall_fmap, Forall_true. intros b. cbn. eauto. Qed.

Lemma length_shift xs : length (shift xs) = length xs.
Proof.
  destruct xs as [|x xs]; [reflexivity|].
  unfold shift. cbn [length]. rewrite removelast_firstn_len, length_take.
  cbn [length]. lia.
Qed.

Lemma lookup_shift xs t :
  shift xs !! S t = if decide (S t < length xs)%nat then xs !! t else None.
Proof.
  destruct xs as [|x xs]; [reflexivity|].
  unfold shift. cbn [lookup list_lookup]. rewrite removelast_firstn_len.
  cbn [length Init.Nat.pred]. case_decide as H.
  - apply lookup_take_lt. lia.
  - apply lookup_ge_None_2. rewrite length_take. cbn [length]. lia.
Qed.

Lemma shift_fin_or_nan xs :
  Forall (fun x => exists q, x = Fin q) xs -> Forall fin_or_nan (shift xs).
Proof.
  intros H. destruct xs as [|x xs]; [constructor|].
  unfold shift. constructor; [exact I|].
  rewrite removelast_firstn_len. apply Forall_take.
  eapply Forall_impl; [exact H|]. intros y [q ->]. exact I.
Qed.

Lemma diff_fin_or_nan (df : list Bar) : Forall fin_or_nan (diff (Close df)).
Proof.
  unfold diff. apply Forall_zip_with_fst with (1 := Close_fin df) (Q := fin_or_nan).
  eapply Forall_impl; [apply shift_fin_or_nan, Close_fin|].
  intros y Hy x [q ->]. destruct y; cbn in *; try contradiction; exact I.
Qed.

Lemma gains_nonneg (df : list Bar) :
  Forall nonneg_fin (where_or_zero (fun d => (d >? Fin 0)%F) (diff (Close df))).
Proof.
  unfold where_or_zero. apply Forall_fmap.
  eapply Forall_impl; [apply diff_fin_or_nan|].
  intros [q| | |] H; cbn in *; try contradiction; try lra.
  destruct (Qlt_b 0 q) eqn:E; cbn; [apply Qlt_b_spec in E; lra | lra].
Qed.

Lemma losses_nonneg (df : list Bar) :
  Forall nonneg_fin
    (map neg (where_or_zero (fun d => (d <? Fin 0)%F) (diff (Close df)))).
Proof.
  unfold where_or_zero. rewrite <- list_fmap_compose. apply Forall_fmap.
  eapply Forall_impl; [apply diff_fin_or_nan|].
  intros [q| | |] H; cbn in *; try contradiction; try lra.
  destruct (Qlt_b q 0) eqn:E; cbn; [apply Qlt_b_spec in E; lra | lra].
Qed.

(** Row [t] of the RSI column from the two averages at that row. *)
Lemma lookup_calculate_rsi data w t :
  calculate_rsi data w !! t =
    match rsi_gain w data !! t, rsi_loss w data !! t with
    | Some g, Some l => Some (rsi_of_rs (g / l)%F)
    | _, _ => None
    end.
Proof.
  unfold calculate_rsi. rewrite list_lookup_fmap, lookup_zip_with.
  destruct (rsi_gain w data !! t) as [g|]; [|reflexivity].
  destruct (rsi_loss w data !! t) as [l|]; reflexivity.
Qed.

Lemma length_diff xs : length (diff xs) = length xs.
Proof.
  unfold diff. rewrite length_zip_with, length_shift. lia.
Qed.

Lemma length_Close df : length (Close df) = length df.
Proof. unfold Close. apply length_map. Qed.

Lemma lookup_rsi_gain w data t :
  rsi_gain w data !! t =
    if decide (t < length data)%nat
    then Some (mean_at w (where_or_zero (fun d => (d >? Fin 0)%F) (diff data)) t)
    else None.
Proof.
  unfold rsi_gain. rewrite lookup_rolling_mean.
  unfold where_or_zero. rewrite length_map, length_diff. reflexivity.
Qed.

Lemma lookup_rsi_loss w data t :
  rsi_loss w data !! t =
    if decide (t < length data)%nat
    then Some (mean_at w (map neg (where_or_zero (fun d => (d <? Fin 0)%F) (diff data))) t)
    else None.
Proof.
  unfold rsi_loss. rewrite lookup_rolling_mean.
  unfold where_or_zero. rewrite !length_map, length_diff. reflexivity.
Qed.

(** Both averages are defined on the same rows: from row 13 on they are
    non-negative numbers, before they are NaN. *)
Lemma rsi_averages (df : list Bar) (t : nat) :
  (t < length df)%nat ->
  if (t + 1 <? 14)%nat
  then rsi_gain 14 (Close df) !! t = Some NaN /\ rsi_loss 14 (Close df) !! t = Some NaN
  else exists g l, rsi_gain 14 (Close df) !! t = Some (Fin g) /\
                   rsi_loss 14 (Close df) !! t = Some (Fin l) /\ 0 <= g /\ 0 <= l.
Proof.
  intros Ht. rewrite lookup_rsi_gain, lookup_rsi_loss, length_Close.
  rewrite !decide_True by exact Ht.
  assert (H14 : (0 < 14)%nat) by lia.
  pose proof (mean_at_nonneg 14 _ t H14 (gains_nonneg df)) as Hg.
  pose proof (mean_at_nonneg 14 _ t H14 (losses_nonneg df)) as Hl.
  destruct (t + 1 <? 14)%nat.
  - rewrite Hg, Hl. split; reflexivity.
  - destruct Hg as (g & -> & Hg), Hl as (l & -> & Hl). exists g, l. repeat split; assumption.
Qed.

Lemma Qpos_b_spec (q : Q) : Qpos_b q = true <-> 0 < q.
Proof.
  unfold Qpos_b, Qlt. cbn. rewrite Z.ltb_lt, Z.mul_1_r. reflexivity.
Qed.

Lemma rsi_of_rs_range (x : Q) :
  0 <= x -> exists r, rsi_of_rs (Fin x) = Fin r /\ 0 <= r <= 100.
Proof.
  intros Hx. unfold rsi_of_rs. cbn.
  assert (Hpos : 0 < 1 + x) by lra.
  rewrite (Qzero_b_pos _ Hpos). cbn.
  eexists; split; [reflexivity|].
  assert (H0 : 0 <= 100 / (1 + x)).
  { apply Qle_shift_div_l; [exact Hpos | lra]. }
  assert (H1 : 100 / (1 + x) <= 100).
  { apply Qle_shift_div_r; [exact Hpos | lra]. }
  set (y := 100 / (1 + x)) in *. lra.
Qed.

(** C3 as the specification states it fails: on 61 sessions that only
    rise, the average loss of the last window is 0, the quotient
    [gain / loss] is +infinity rather than NaN, the RSI of the row is 100,
    [fillna(0)] leaves it alone, and 100 is what the model is fed. *)
Lemma C3_counterexample :
  let df := rising_bars 61 in
  (exists l, rsi_loss 14 (Close df) !! 60%nat = Some (Fin l) /\ l == 0) /\
  calculate_features df = Some (feature_row df 60) /\
  f_rsi (fillna (feature_row df 60)) = Fin 100 /\
  f_rsi (fillna (feature_row df 60)) <> Fin 0.
Proof.
  cbv zeta. split.
  { exists (0 # 14). split; [vm_compute; reflexivity | reflexivity]. }
  split; [reflexivity|].
  assert (E : f_rsi (fillna (feature_row (rising_bars 61) 60)) = Fin 100)
    by (vm_compute; reflexivity).
  split; [exact E | rewrite E; discriminate].
Qed.

(** C3 (amended): wherever the 14-row average loss is a number [l], the
    average gain is a non-negative number [g] too, and
    - if [l > 0], the RSI of the row is a number in [0, 100];
    - if [l = 0] and [g = 0] (a flat window), the RSI is NaN and the value
      fed to the model after [fillna(0)] is exactly 0.0;
    - if [l = 0] and [g > 0], the RSI is 100 and stays 100 after
      [fillna(0)]. *)
Theorem C3_rsi_range_and_neutralisation (df : list Bar) (t : nat) (l : Q) :
  rsi_loss 14 (Close df) !! t = Some (Fin l) ->
  exists g,
    rsi_gain 14 (Close df) !! t = Some (Fin g) /\ 0 <= g /\ 0 <= l /\
    (0 < l -> exists r, RSI df !! t = Some (Fin r) /\ 0 <= r <= 100) /\
    (l == 0 -> g == 0 ->
       RSI df !! t = Some NaN /\ f_rsi (fillna (feature_row df t)) = Fin 0) /\
    (l == 0 -> 0 < g ->
       RSI df !! t = Some (Fin 100) /\
       f_rsi (fillna (feature_row df t)) = Fin 100).
Proof.
  intros Hl.
  assert (Ht : (t < length df)%nat).
  { rewrite lookup_rsi_loss, length_Close in Hl. case_decide; [assumption|discriminate]. }
  pose proof (rsi_averages df t Ht) as Havg.
  destruct (t + 1 <? 14)%nat.
  { destruct Havg as [_ Hnan]. rewrite Hnan in Hl. discriminate. }
  destruct Havg as (g & l' & Hg & Hl' & Hg0 & Hl0).
  rewrite Hl' in Hl. injection Hl as ->.
  exists g. split; [exact Hg|]. split; [exact Hg0|]. split; [exact Hl0|].
  assert (Hrsi : RSI df !! t = Some (rsi_of_rs (Fin g / Fin l)%F)).
  { unfold RSI. rewrite lookup_calculate_rsi, Hg, Hl'. reflexivity. }
  assert (Hcell : f_rsi (fillna (feature_row df t))
                  = fillna0 (rsi_of_rs (Fin g / Fin l)%F)).
  { cbn. unfold cell. rewrite Hrsi. reflexivity. }
  rewrite Hrsi, Hcell. split; [|split].
  - intros Hpos.
    assert (Ediv : (Fin g / Fin l)%F = Fin (g / l)).
    { cbn. rewrite (Qzero_b_pos _ Hpos). reflexivity. }
    rewrite Ediv.
    destruct (rsi_of_rs_range (g / l)) as (r & Hr & Hrange).
    { apply Qle_shift_div_l; [exact Hpos | lra]. }
    exists r. rewrite Hr. split; [reflexivity | exact Hrange].
  - intros Hz Hgz. apply Qzero_b_spec in Hz, Hgz.
    assert (Ediv : (Fin g / Fin l)%F = NaN).
    { cbn. rewrite Hz, Hgz. reflexivity. }
    rewrite Ediv. split; reflexivity.
  - intros Hz Hgp. apply Qzero_b_spec in Hz.
    assert (Hgz : Qzero_b g = false) by (apply Qzero_b_pos, Hgp).
    apply Qpos_b_spec in Hgp.
    assert (Ediv : (Fin g / Fin l)%F = PInf).
    { cbn. rewrite Hz, Hgz, Hgp. reflexivity. }
    rewrite Ediv. split; reflexivity.
Qed.

(** ** Training-data preparation *)

Lemma lookup_shift_back xs t :
  (t < length xs)%nat -> shift_back xs !! t = Some (default NaN (xs !! S t)).
Proof.
  destruct xs as [|x tl]; cbn [length]; [lia|]. intros Ht.
  assert (E : (x :: tl) !! S t = tl !! t) by reflexivity.
  rewrite E. unfold shift_back.
  destruct (decide (t < length tl)%nat) as [Hlt|Hge].
  - rewrite lookup_app_l by exact Hlt.
    destruct (lookup_lt_is_Some_2 tl t Hlt) as [y Hy].
    rewrite Hy. reflexivity.
  - assert (t = length tl) as -> by lia.
    rewrite lookup_app_r by lia. rewrite Nat.sub_diag.
    rewrite (lookup_ge_None_2 tl (length tl)) by lia. reflexivity.
Qed.

Lemma lookup_Close df t : Close df !! t = (fun b => Fin (bar_close b)) <$> df !! t.
Proof. unfold Close. apply list_lookup_fmap. Qed.

(** The [Target] column is defined on every row and is the label. *)
Lemma lookup_Target (df : list Bar) (t : nat) :
  (t < length df)%nat -> Target df !! t = Some (label_of df t).
Proof.
  intros Ht. unfold Target, label_of.
  rewrite lookup_zip_with, lookup_shift_back by (rewrite length_Close; exact Ht).
  rewrite !lookup_Close.
  destruct (lookup_lt_is_Some_2 df t Ht) as [b ->]. cbn.
  destruct (df !! S t) as [b'|]; reflexivity.
Qed.

Lemma elem_of_dropna (df : list Bar) (t : nat) :
  t ∈ dropna df <-> (t < length df)%nat /\ row_has_nan df t = false.
Proof.
  unfold dropna. rewrite list_elem_of_In, filter_In, in_seq, negb_true_iff.
  split; intros [H1 H2]; (split; [lia | exact H2]).
Qed.

(** C1 as the specification states it fails: of 51 rising sessions the
    last one, row 50, has no successor, and it is in the label table all
    the same, with label 0; only the rows of the warm-up are dropped. *)
Lemma C1_counterexample :
  length (rising_bars 51) = 51%nat /\
  exists X, prepare_data_of (rising_bars 51)
            = Ok (X, [(49%nat, 1%Z); (50%nat, 0%Z)]).
Proof.
  split; [reflexivity|].
  eexists. vm_compute. reflexivity.
Qed.

(** C1 (amended): on a non-empty frame the preparation succeeds; the rows
    of [X] and [y] are exactly the rows with no NaN in a derived column
    (nothing else is dropped); the label of a kept row is 1 if the row has
    a successor that closes strictly higher and 0 otherwise; the final row
    has no successor, its label is 0, and it is kept in the table whenever
    its derived columns are defined. *)
Theorem C1_labels (df : list Bar) :
  df <> [] ->
  exists X y,
    prepare_data_of df = Ok (X, y) /\
    X = map (fun t => (t, feature_row df t)) (dropna df) /\
    y = map (fun t => (t, label_of df t)) (dropna df) /\
    (forall t, t ∈ dropna df <-> (t < length df)%nat /\ row_has_nan df t = false) /\
    label_of df (length df - 1) = 0%Z /\
    (row_has_nan df (length df - 1) = false -> ((length df - 1)%nat, 0%Z) ∈ y).
Proof.
  intros Hne.
  assert (Hy : map (fun t => (t, default 0%Z (Target df !! t))) (dropna df)
               = map (fun t => (t, label_of df t)) (dropna df)).
  { apply map_ext_in. intros t Ht. apply list_elem_of_In, elem_of_dropna in Ht.
    rewrite lookup_Target by apply Ht. reflexivity. }
  assert (Hlast : label_of df (length df - 1) = 0%Z).
  { unfold label_of. replace (S (length df - 1)) with (length df).
    - rewrite (lookup_ge_None_2 df (length df)) by lia.
      destruct (df !! (length df - 1)%nat); reflexivity.
    - destruct df; [contradiction | cbn; lia]. }
  exists (map (fun t => (t, feature_row df t)) (dropna df)).
  exists (map (fun t => (t, label_of df t)) (dropna df)).
  split; [|split; [reflexivity|split; [reflexivity|split; [apply elem_of_dropna|split]]]].
  - destruct df as [|b df']; [contradiction|].
    unfold prepare_data_of. rewrite Hy. reflexivity.
  - exact Hlast.
  - intros Hnan.
    rewrite <- Hlast.
    apply (list_elem_of_fmap_2 (fun t => (t, label_of df t))).
    apply elem_of_dropna. split; [|exact Hnan].
    destruct df; [contradiction | cbn; lia].
Qed.

(** The theorem at 52 sessions that close alternately at 101 and 100. *)
Lemma C1_labels_witness :
  exists X y,
    prepare_data_of (zigzag_bars 52) = Ok (X, y) /\
    y = [(49%nat, 1%Z); (50%nat, 0%Z); (51%nat, 0%Z)].
Proof.
  destruct (C1_labels (zigzag_bars 52)) as (X & y & H & _ & Hy & _).
  - discriminate.
  - exists X, y. split; [exact H|]. rewrite Hy. vm_compute. reflexivity.
Defined.

(** ** Training *)

Section TrainingFacts.

Import Training.

Variables Model Scaler : Type.
Variable history : string -> string -> list Bar.
Variable train_test_split :
  XFrame -> ySeries -> Exc ((XFrame * XFrame) * (ySeries * ySeries)).
Variable scaler_fit : XFrame -> Exc Scaler.
Variable scaler_transform : Scaler -> XFrame -> Exc XFrame.
Variable model_fit : XFrame -> ySeries -> Exc Model.
Variable model_predict : Model -> XFrame -> Exc (list Z).
Variable accuracy_score : ySeries -> list Z -> Exc F.
Variable now_isoformat : string.
Variable show_accuracy : F -> string.
Variable writable : string -> bool.

(** C8: when the fetched series is empty, [prepare_data] raises
    "No data fetched." before anything is computed, [build_model] reports
    it, and none of the three artifacts is written: the files are the
    ones that were there before. *)
Theorem C8_empty_series_writes_nothing (w : World Model Scaler) :
  history "SPY" "5y" = [] ->
  (prepare_data Model Scaler history "SPY" "5y" w).2
    = Raise (ValueError "No data fetched.") /\
  let out := build_model Model Scaler history train_test_split scaler_fit
               scaler_transform model_fit model_predict accuracy_score
               now_isoformat show_accuracy writable w in
  out.2 = Ok tt /\
  files out.1 = files w /\
  stdout out.1 = stdout w ++
    [ "Starting Custom Model Training (AdaBoost)...";
      "Fetching data for SPY...";
      "Error during training: No data fetched." ].
Proof.
  intros Hempty. split.
  - unfold prepare_data, bind, print, lift. cbn. rewrite Hempty. reflexivity.
  - unfold build_model, try_except, prepare_data, bind, print, lift.
    cbn. rewrite Hempty. cbn.
    split; [reflexivity|]. split; [reflexivity|].
    rewrite <- !app_assoc. reflexivity.
Qed.

End TrainingFacts.

(** The theorem with a market-data source that has nothing for any ticker. *)
Lemma C8_witness :
  let out := Training.build_model unit unit (fun _ _ => [])
               (fun _ _ => Raise (LibraryError "unused"))
               (fun _ => Ok tt) (fun _ X => Ok X) (fun _ _ => Ok tt)
               (fun _ _ => Ok []) (fun _ _ => Ok (Fin 0)) "2024-01-01T00:00:00"
               (fun _ => "0.0000") (fun _ => true)
               (Training.mkWorld ∅ []) in
  Training.files out.1 = ∅.
Proof.
  apply (C8_empty_series_writes_nothing unit unit (fun _ _ => [])
           (fun _ _ => Raise (LibraryError "unused"))
           (fun _ => Ok tt) (fun _ X => Ok X) (fun _ _ => Ok tt)
           (fun _ _ => Ok []) (fun _ _ => Ok (Fin 0)) "2024-01-01T00:00:00"
           (fun _ => "0.0000") (fun _ => true) (Training.mkWorld ∅ [])).
  reflexivity.
Defined.

(** ** Ratio normalisation *)

Section RatioFacts.

Import Analysis ScanSpec.

Lemma get_val_ok info key dflt : exists v, get_val info key dflt = Ok v.
Proof.
  unfold get_val, py_or.
  destruct (info !! key) as [[|x]|]; cbn;
    repeat match goal with
           | |- context [if ?b then _ else _] => destruct b; cbn
           end; eauto.
Qed.

(** Absent, null and zero all normalise to 0.0. *)
Lemma get_val_missing info key :
  missing (info !! key) -> get_val info key (Fin 0) = Ok (Fin 0).
Proof.
  unfold get_val, py_or. intros [-> | [-> | (q & -> & Hq)]]; cbn; try reflexivity.
  apply Qzero_b_spec in Hq. rewrite Hq. reflexivity.
Qed.

Lemma empty_ratios_eq :
  _empty_ratios = list_to_map (map (fun k => (k, Fin 0)) ratio_names).
Proof. vm_compute. reflexivity. Qed.

Lemma dom_empty_ratios : dom _empty_ratios = list_to_set ratio_names.
Proof. rewrite empty_ratios_eq, dom_list_to_map_L. reflexivity. Qed.


Variable get_financials : string -> option Financials.

(** [calculate_ratios] never raises and always populates the same keys. *)
Lemma calculate_ratios_ok symbol :
  exists r, calculate_ratios get_financials symbol = Ok r /\
            dom r = list_to_set ratio_names.
Proof.
  unfold calculate_ratios.
  destruct (get_financials symbol) as [[[info|]]|]; cbn [Analysis.info];
    try (exists _empty_ratios; split; [reflexivity | apply dom_empty_ratios]).
  destruct (decide (info = ∅));
    [exists _empty_ratios; split; [reflexivity | apply dom_empty_ratios]|].
  repeat match goal with
         | |- context [get_val info ?k ?d] =>
             let v := fresh "v" in let Hv := fresh "Hv" in
             destruct (get_val_ok info k d) as [v Hv]; rewrite Hv; cbn [bindE]
         end.
  destruct (truthy v5); cbn [bindE];
    (eexists; split; [reflexivity | rewrite dom_list_to_map_L; reflexivity]).
Qed.

End RatioFacts.




(** ** The undervalued scan *)

Section ScanFacts.

Import Analysis ScanSpec.

Variable get_financials : string -> option Financials.

Lemma getattr_attr (r : gmap string F) name :
  is_Some (r !! name) -> getattr r name = Ok (attr r name).
Proof. intros [v Hv]. unfold getattr, attr. rewrite Hv. reflexivity. Qed.

Lemma ratios_populated symbol (r : gmap string F) name :
  calculate_ratios get_financials symbol = Ok r ->
  name ∈ ratio_names -> is_Some (r !! name).
Proof.
  intros Hr Hin.
  destruct (calculate_ratios_ok get_financials symbol) as (r' & Hr' & Hdom).
  rewrite Hr in Hr'. injection Hr' as <-.
  apply elem_of_dom. rewrite Hdom. apply elem_of_list_to_set. exact Hin.
Qed.

Lemma name_pe : "pe_ratio" ∈ ratio_names.
Proof. unfold ratio_names. set_solver. Qed.
Lemma name_pb : "pb_ratio" ∈ ratio_names.
Proof. unfold ratio_names. set_solver. Qed.
Lemma name_roe : "roe" ∈ ratio_names.
Proof. unfold ratio_names. set_solver. Qed.
Lemma name_de : "debt_to_equity" ∈ ratio_names.
Proof. unfold ratio_names. set_solver. Qed.

(** The loop body appends the candidate's entry, if it has one. *)
Lemma scan_one_spec results sym :
  scan_one get_financials results sym
  = Ok (results ++ option_list (entry_of get_financials sym)).
Proof.
  unfold scan_one, entry_of.
  destruct (calculate_ratios_ok get_financials sym) as (r & Hr & _).
  rewrite Hr. cbn [bindE].
  rewrite (getattr_attr r "pe_ratio") by (eapply ratios_populated; [exact Hr | apply name_pe]).
  rewrite (getattr_attr r "pb_ratio") by (eapply ratios_populated; [exact Hr | apply name_pb]).
  rewrite (getattr_attr r "roe") by (eapply ratios_populated; [exact Hr | apply name_roe]).
  rewrite (getattr_attr r "debt_to_equity") by (eapply ratios_populated; [exact Hr | apply name_de]).
  cbn [bindE]. unfold score_of, criteria, bump.
  destruct ((Fin 0 <? attr r "pe_ratio")%F && (attr r "pe_ratio" <? Fin 25)%F);
    destruct ((Fin 0 <? attr r "pb_ratio")%F && (attr r "pb_ratio" <? Fin 5)%F);
    destruct (attr r "roe" >? Fin 15)%F;
    destruct (attr r "debt_to_equity" <? Fin 1)%F;
    cbn; rewrite ?app_nil_r; reflexivity.
Qed.

Lemma scan_spec candidates results :
  scan get_financials results candidates
  = Ok (results ++ kept get_financials candidates).
Proof.
  revert results. induction candidates as [|sym rest IH]; intros results.
  - cbn. rewrite app_nil_r. reflexivity.
  - cbn [scan]. rewrite scan_one_spec. cbn [bindE]. rewrite IH.
    unfold kept. cbn [omap list_omap].
    destruct (entry_of get_financials sym); cbn [option_list].
    + rewrite <- app_assoc. reflexivity.
    + rewrite app_nil_r. reflexivity.
Qed.

(** The score of a kept entry is what the specification counts. *)
Lemma kept_entry candidates x :
  x ∈ kept get_financials candidates <->
  exists sym r, sym ∈ candidates /\
    calculate_ratios get_financials sym = Ok r /\
    (3 <= score_of r)%Z /\
    x = mkScore sym (score_of r) (attr r "pe_ratio") (attr r "roe").
Proof.
  unfold kept. rewrite list_elem_of_omap. unfold entry_of. split.
  - intros (sym & Hin & He).
    destruct (calculate_ratios get_financials sym) as [r|] eqn:Hr; [|discriminate].
    destruct (3 <=? score_of r)%Z eqn:Hs; [|discriminate].
    injection He as <-. exists sym, r. apply Z.leb_le in Hs. auto.
  - intros (sym & r & Hin & Hr & Hs & ->). exists sym. split; [exact Hin|].
    rewrite Hr. apply Z.leb_le in Hs. rewrite Hs. reflexivity.
Qed.

End ScanFacts.

(** ** The sort of the scan's results *)

Section SortFacts.

Import Analysis ScanSpec.

Lemma insert_desc_perm x l : Permutation (insert_desc x l) (l ++ [x]).
Proof.
  induction l as [|y l IH]; cbn.
  - reflexivity.
  - destruct (sr_score x <=? sr_score y)%Z.
    + constructor. exact IH.
    + change (Permutation ([x] ++ (y :: l)) ((y :: l) ++ [x])).
      apply Permutation_app_comm.
Qed.

Lemma insert_desc_Forall (P : ScoreRecord -> Prop) x l :
  P x -> Forall P l -> Forall P (insert_desc x l).
Proof.
  intros Hx Hl. eapply Permutation_Forall.
  - symmetry. apply insert_desc_perm.
  - apply Forall_app. split; [exact Hl | constructor; [exact Hx | constructor]].
Qed.

Lemma insert_desc_sorted x l :
  StronglySorted score_ge l -> StronglySorted score_ge (insert_desc x l).
Proof.
  induction 1 as [|y l Hs IH Hy]; cbn.
  - repeat constructor.
  - destruct (sr_score x <=? sr_score y)%Z eqn:E.
    + constructor; [exact IH|].
      apply insert_desc_Forall; [|exact Hy].
      unfold score_ge. apply Z.leb_le, E.
    + apply Z.leb_gt in E.
      constructor; [constructor; assumption|].
      constructor; [unfold score_ge; lia|].
      eapply Forall_impl; [exact Hy|]. unfold score_ge. intros z Hz. lia.
Qed.

(** Insertion is stable: among the entries of one score the new one
    comes last. *)
Lemma insert_desc_stable s x l :
  StronglySorted score_ge l ->
  with_score s (insert_desc x l) = with_score s l ++ with_score s [x].
Proof.
  unfold with_score.
  induction 1 as [|y l Hs IH Hy]; [reflexivity|].
  cbn [insert_desc]. destruct (sr_score x <=? sr_score y)%Z eqn:E.
  - cbn [List.filter]. rewrite IH.
    destruct (sr_score y =? s)%Z; reflexivity.
  - apply Z.leb_gt in E.
    cbn [List.filter app]. destruct (sr_score x =? s)%Z eqn:Ex.
    + apply Z.eqb_eq in Ex.
      assert (Hy' : (sr_score y =? s)%Z = false) by (apply Z.eqb_neq; lia).
      rewrite Hy'.
      assert (Hnone : List.filter (fun z => (sr_score z =? s)%Z) l = []).
      { clear IH Hs. induction Hy as [|z l Hz _ IH']; [reflexivity|].
        cbn. unfold score_ge in Hz.
        assert ((sr_score z =? s)%Z = false) as -> by (apply Z.eqb_neq; lia).
        exact IH'. }
      rewrite Hnone. reflexivity.
    + rewrite app_nil_r. reflexivity.
Qed.

Lemma with_score_app s l1 l2 :
  with_score s (l1 ++ l2) = with_score s l1 ++ with_score s l2.
Proof. unfold with_score. apply List.filter_app. Qed.

Lemma sort_desc_from sorted l :
  StronglySorted score_ge sorted ->
  Permutation (foldl (fun sorted x => insert_desc x sorted) sorted l) (sorted ++ l) /\
  StronglySorted score_ge (foldl (fun sorted x => insert_desc x sorted) sorted l) /\
  forall s, with_score s (foldl (fun sorted x => insert_desc x sorted) sorted l)
            = with_score s sorted ++ with_score s l.
Proof.
  revert sorted. induction l as [|x l IH]; intros sorted Hs; cbn [foldl].
  - rewrite app_nil_r. split; [reflexivity|]. split; [exact Hs|].
    intros s. unfold with_score at 3. cbn. rewrite app_nil_r. reflexivity.
  - destruct (IH (insert_desc x sorted) (insert_desc_sorted x sorted Hs))
      as (Hp & Hso & Hst).
    split; [|split; [exact Hso|]].
    + rewrite Hp, insert_desc_perm, <- app_assoc. reflexivity.
    + intros s. rewrite Hst, insert_desc_stable by exact Hs.
      rewrite <- app_assoc, <- with_score_app. reflexivity.
Qed.

(** [sort_desc] is the stable sort by score, highest first. *)
Lemma sort_desc_spec l :
  Permutation (sort_desc l) l /\
  StronglySorted score_ge (sort_desc l) /\
  forall s, with_score s (sort_desc l) = with_score s l.
Proof.
  destruct (sort_desc_from [] l) as (Hp & Hs & Hst); [constructor|].
  unfold sort_desc. split; [exact Hp|]. split; [exact Hs|]. exact Hst.
Qed.

End SortFacts.

Section ScanTheorems.

Import Analysis ScanSpec.

Lemma score_of_le_4 (r : gmap string F) : (score_of r <= 4)%Z.
Proof.
  unfold score_of, criteria.
  pose proof (List.filter_length_le id
    [ (Fin 0 <? attr r "pe_ratio")%F && (attr r "pe_ratio" <? Fin 25)%F;
      (Fin 0 <? attr r "pb_ratio")%F && (attr r "pb_ratio" <? Fin 5)%F;
      (attr r "roe" >? Fin 15)%F;
      (attr r "debt_to_equity" <? Fin 1)%F ]) as H.
  cbn [length] in H. lia.
Qed.

(** A list sorted by score, highest first, whose scores are 3 or 4 is
    its entries of score 4 followed by its entries of score 3. *)
Lemma sorted_3_4 (l : list ScoreRecord) :
  StronglySorted score_ge l ->
  Forall (fun x => (3 <= sr_score x <= 4)%Z) l ->
  l = with_score 4 l ++ with_score 3 l.
Proof.
  unfold with_score.
  induction 1 as [|y l Hs IH Hy]; intros Hrange; [reflexivity|].
  inversion Hrange as [|? ? Hy34 Hl34]; subst.
  specialize (IH Hl34). cbn [List.filter].
  destruct (sr_score y =? 4)%Z eqn:E4.
  - apply Z.eqb_eq in E4.
    assert ((sr_score y =? 3)%Z = false) as -> by (apply Z.eqb_neq; lia).
    cbn. f_equal. exact IH.
  - apply Z.eqb_neq in E4.
    assert ((sr_score y =? 3)%Z = true) as -> by (apply Z.eqb_eq; lia).
    assert (Hnone : List.filter (fun x => (sr_score x =? 4)%Z) l = []).
    { clear IH Hs Hl34 Hrange. induction Hy as [|z l Hz _ IH']; [reflexivity|].
      cbn. unfold score_ge in Hz.
      assert ((sr_score z =? 4)%Z = false) as -> by (apply Z.eqb_neq; lia).
      exact IH'. }
    rewrite Hnone in IH |- *. cbn. f_equal. exact IH.
Qed.

Variable get_financials : string -> option Financials.

Lemma kept_range candidates :
  Forall (fun x => (3 <= sr_score x <= 4)%Z) (kept get_financials candidates).
Proof.
  apply Forall_forall. intros x Hx. apply kept_entry in Hx.
  destruct Hx as (sym & r & _ & _ & H3 & ->). cbn.
  pose proof (score_of_le_4 r). lia.
Qed.

(** C5 (amended): for every candidate list, in its order, and every
    limit [N >= 0], the scan returns the first [N] (at most) entries of
    the list [sorted], where [sorted] is the stable sort, score
    descending, of the kept entries: a permutation of them, sorted by
    score with the highest first, entries of equal score in scan order
    -- concretely the entries of score 4 in scan order followed by those
    of score 3.  The kept entries are exactly the candidates whose score,
    the number of satisfied criteria among [0 < pe_ratio < 25],
    [0 < pb_ratio < 5], [roe > 15] and [debt_to_equity < 1.0], is at
    least 3. *)
Theorem C5_undervalued_scan (candidates : list string) (N : Z) :
  (0 <= N)%Z ->
  exists sorted,
    find_undervalued_in get_financials candidates N
      = Ok (take (Z.to_nat N) sorted) /\
    (Z.of_nat (length (take (Z.to_nat N) sorted)) <= N)%Z /\
    Permutation sorted (kept get_financials candidates) /\
    StronglySorted score_ge sorted /\
    (forall s, with_score s sorted = with_score s (kept get_financials candidates)) /\
    sorted = with_score 4 (kept get_financials candidates)
             ++ with_score 3 (kept get_financials candidates) /\
    (forall x, x ∈ kept get_financials candidates <->
       exists sym r, sym ∈ candidates /\
         calculate_ratios get_financials sym = Ok r /\
         (3 <= score_of r)%Z /\
         x = mkScore sym (score_of r) (attr r "pe_ratio") (attr r "roe")).
Proof.
  intros HN.
  destruct (sort_desc_spec (kept get_financials candidates)) as (Hp & Hs & Hst).
  exists (sort_desc (kept get_financials candidates)).
  split; [|split; [|split; [exact Hp|split; [exact Hs|split; [exact Hst|split]]]]].
  - unfold find_undervalued_in. rewrite scan_spec. cbn [bindE app].
    unfold slice_to. apply Z.leb_le in HN. rewrite HN. reflexivity.
  - rewrite length_take. lia.
  - rewrite <- !Hst. apply sorted_3_4; [exact Hs|].
    eapply Permutation_Forall; [symmetry; exact Hp | apply kept_range].
  - apply kept_entry.
Qed.

(** What the criteria make of a record of zeros: only the debt
    criterion holds. *)
Lemma all_zero_score symbol (r : gmap string F) :
  calculate_ratios get_financials symbol = Ok r ->
  all_zero r -> score_of r = 1%Z.
Proof.
  intros Hr Hz.
  assert (Hattr : forall name, name ∈ ratio_names ->
                    exists q, attr r name = Fin q /\ q == 0).
  { intros name Hin.
    destruct (ratios_populated get_financials symbol r name Hr Hin) as [v Hv].
    destruct (Hz name v Hv) as (q & -> & Hq).
    exists q. unfold attr. rewrite Hv. split; [reflexivity | exact Hq]. }
  destruct (Hattr _ name_pe) as (pe & Epe & Hpe).
  destruct (Hattr _ name_pb) as (pb & Epb & Hpb).
  destruct (Hattr _ name_roe) as (roe & Eroe & Hroe).
  destruct (Hattr _ name_de) as (de & Ede & Hde).
  unfold score_of, criteria. rewrite Epe, Epb, Eroe, Ede.
  unfold gt. cbn [lt].
  assert (Qlt_b 0 pe = false) as -> by (apply Qlt_b_false; lra).
  assert (Qlt_b 0 pb = false) as -> by (apply Qlt_b_false; lra).
  assert (Qlt_b 15 roe = false) as -> by (apply Qlt_b_false; lra).
  assert (Qlt_b de 1 = true) as -> by (apply Qlt_b_spec; lra).
  reflexivity.
Qed.

(** C7: when the ratios of every candidate are all 0.0, every candidate
    is scored without an exception, its score is 1 (the valuation checks
    [pe_ratio > 0] and [pb_ratio > 0] fail, so does [roe > 15]; only
    [debt_to_equity < 1.0] holds), none reaches 3, and the scan returns
    the empty list whatever the limit. *)
Theorem C7_all_zero_universe (candidates : list string) (N : Z) :
  (forall sym r, sym ∈ candidates ->
     calculate_ratios get_financials sym = Ok r -> all_zero r) ->
  find_undervalued_in get_financials candidates N = Ok [] /\
  kept get_financials candidates = [] /\
  (forall sym, sym ∈ candidates ->
     exists r, calculate_ratios get_financials sym = Ok r /\
               (Fin 0 <? attr r "pe_ratio")%F = false /\
               (Fin 0 <? attr r "pb_ratio")%F = false /\
               score_of r = 1%Z).
Proof.
  intros Hzero.
  assert (Hscore : forall sym, sym ∈ candidates ->
            exists r, calculate_ratios get_financials sym = Ok r /\
                      (Fin 0 <? attr r "pe_ratio")%F = false /\
                      (Fin 0 <? attr r "pb_ratio")%F = false /\
                      score_of r = 1%Z).
  { intros sym Hin.
    destruct (calculate_ratios_ok get_financials sym) as (r & Hr & _).
    exists r. split; [exact Hr|].
    pose proof (Hzero sym r Hin Hr) as Hz.
    destruct (ratios_populated get_financials sym r _ Hr name_pe) as [pe Hpe].
    destruct (ratios_populated get_financials sym r _ Hr name_pb) as [pb Hpb].
    destruct (Hz _ _ Hpe) as (qpe & -> & Hqpe).
    destruct (Hz _ _ Hpb) as (qpb & -> & Hqpb).
    unfold attr. rewrite Hpe, Hpb. cbn [default lt].
    split; [apply Qlt_b_false; lra|].
    split; [apply Qlt_b_false; lra|].
    eapply all_zero_score; eassumption. }
  assert (Hkept : kept get_financials candidates = []).
  { destruct (kept get_financials candidates) as [|x l] eqn:E; [reflexivity|].
    assert (Hx : x ∈ kept get_financials candidates) by (rewrite E; left).
    apply kept_entry in Hx. destruct Hx as (sym & r & Hin & Hr & H3 & _).
    destruct (Hscore sym Hin) as (r' & Hr' & _ & _ & H1).
    rewrite Hr in Hr'. injection Hr' as <-. lia. }
  split; [|split; [exact Hkept | exact Hscore]].
  unfold find_undervalued_in. rewrite scan_spec, Hkept. cbn.
  unfold slice_to. destruct (0 <=? N)%Z; rewrite take_nil; reflexivity.
Qed.

End ScanTheorems.

Lemma all_zero_empty_ratios : ScanSpec.all_zero Analysis._empty_ratios.
Proof.
  unfold Analysis._empty_ratios. cbn [foldl Analysis.ratio_names].
  change (map_Forall (fun (_ : string) (v : F) => exists q, v = Fin q /\ q == 0)
            (<["market_cap":=Fin 0]> (<["pb_ratio":=Fin 0]> (<["pe_ratio":=Fin 0]>
             (<["receivables_turnover":=Fin 0]> (<["inventory_turnover":=Fin 0]>
             (<["asset_turnover":=Fin 0]> (<["equity_multiplier":=Fin 0]>
             (<["debt_to_assets":=Fin 0]> (<["debt_to_equity":=Fin 0]>
             (<["cash_ratio":=Fin 0]> (<["quick_ratio":=Fin 0]>
             (<["current_ratio":=Fin 0]> (<["gross_profit_margin":=Fin 0]>
             (<["net_profit_margin":=Fin 0]> (<["roa":=Fin 0]>
             (<["roe":=Fin 0]> (∅ : gmap string F)))))))))))))))))).
  repeat (apply map_Forall_insert_2; [exists 0; split; reflexivity|]).
  apply map_Forall_empty.
Qed.

(** C5 as the specification states it fails for a limit below zero: the
    slice [results[:-1]] drops the last entry instead of returning at most
    [N] entries.  Three healthy candidates and the limit -1 give two
    entries. *)
Lemma C5_counterexample :
  exists res,
    Analysis.find_undervalued_in healthy ["A"; "B"; "C"] (-1) = Ok res /\
    length res = 2%nat /\
    ~ (Z.of_nat (length res) <= -1)%Z.
Proof.
  eexists. split; [vm_compute; reflexivity|].
  split; [reflexivity | cbn; lia].
Qed.

(** The theorem at three healthy candidates and the limit 2. *)
Lemma C5_witness :
  exists sorted,
    Analysis.find_undervalued_in healthy ["A"; "B"; "C"] 2
      = Ok (take 2 sorted) /\
    Permutation sorted (ScanSpec.kept healthy ["A"; "B"; "C"]).
Proof.
  destruct (C5_undervalued_scan healthy ["A"; "B"; "C"] 2) as (sorted & H & _ & Hp & _).
  - lia.
  - exists sorted. split; [exact H | exact Hp].
Defined.

(** The theorem at the scanner's own universe when the provider knows no
    symbol: every record is [_empty_ratios]. *)
Lemma C7_witness :
  Analysis.find_undervalued_stocks no_financials 5 = Ok [].
Proof.
  apply (C7_all_zero_universe no_financials Analysis.candidates 5).
  intros sym r _ Hr. injection Hr as <-. apply all_zero_empty_ratios.
Defined.

(** ** Direction prediction *)

Lemma lt_irrefl (x : F) : (x <? x)%F = false.
Proof.
  destruct x as [q| | |]; cbn; try reflexivity.
  apply Qlt_b_false. lra.
Qed.

Section PredictFacts.

Import Api.

Variable get_stock_data : string -> string -> list Bar.

(** C9: on a non-empty series of at most 20 bars the reported SMA is the
    last close itself, the strict comparison [last_close > sma20] is
    false, and the baseline prediction is DOWN, whatever the artifacts
    are. *)
Theorem C9_short_series_baseline_down
    (custom_model : option (FeatureRow -> Exc (list F)))
    (scaler : option (FeatureRow -> Exc FeatureRow))
    (features_of : list Bar -> option FeatureRow) (symbol : string) :
  let df := get_stock_data symbol "1y" in
  df <> [] -> (length df <= 20)%nat ->
  sma20 df = last_close df /\
  (last_close df >? sma20 df)%F = false /\
  exists resp,
    predict_with get_stock_data custom_model scaler features_of symbol = Ok resp /\
    p_sma_20 resp = p_current_price resp /\
    p_prediction resp = "DOWN".
Proof.
  cbv zeta. intros Hne Hlen.
  assert (Hsma : sma20 (get_stock_data symbol "1y")
                 = last_close (get_stock_data symbol "1y")).
  { unfold sma20.
    assert ((20 <? length (get_stock_data symbol "1y"))%nat = false) as ->
      by (apply Nat.ltb_ge; exact Hlen).
    reflexivity. }
  assert (Hcmp : (last_close (get_stock_data symbol "1y")
                  >? sma20 (get_stock_data symbol "1y"))%F = false).
  { rewrite Hsma. unfold gt. apply lt_irrefl. }
  split; [exact Hsma|]. split; [exact Hcmp|].
  unfold predict_with.
  destruct (get_stock_data symbol "1y") as [|b df'] eqn:E; [contradiction|].
  eexists. split; [reflexivity|]. cbn [p_sma_20 p_current_price p_prediction].
  split; [exact Hsma|]. unfold baseline. rewrite Hcmp. reflexivity.
Qed.

(** C10: with both artifacts loaded and more than 60 bars, if a step of
    the custom-model prediction raises, [predict] still returns normally;
    the custom-model part of the answer is the sentinel
    "Insufficient Data" with confidence 0.0, and the baseline prediction,
    the current price and the SMA are what they are without the model. *)
Theorem C10_custom_model_failure_is_contained
    (model : FeatureRow -> Exc (list F)) (scale : FeatureRow -> Exc FeatureRow)
    (features_of : list Bar -> option FeatureRow) (symbol : string) :
  let df := get_stock_data symbol "1y" in
  (60 < length df)%nat ->
  custom_step_raises features_of model scale df ->
  predict_with get_stock_data (Some model) (Some scale) features_of symbol
    = Ok {| p_symbol := symbol;
            p_prediction := baseline df;
            p_current_price := last_close df;
            p_sma_20 := sma20 df;
            p_custom_model := insufficient_data |} /\
  predict_with get_stock_data None None features_of symbol
    = Ok {| p_symbol := symbol;
            p_prediction := baseline df;
            p_current_price := last_close df;
            p_sma_20 := sma20 df;
            p_custom_model := insufficient_data |}.
Proof.
  cbv zeta. intros Hlen Hraise.
  unfold predict_with.
  destruct (get_stock_data symbol "1y") as [|b df'] eqn:E; [cbn in Hlen; lia|].
  split; [|reflexivity].
  assert (Hloc : custom_try features_of model scale (b :: df')
                   ("Insufficient Data", Fin 0) = ("Insufficient Data", Fin 0)).
  { unfold custom_try. unfold custom_step_raises in Hraise.
    destruct (negb (length (b :: df') =? 0)%nat && (60 <? length (b :: df'))%nat)%bool;
      [|reflexivity].
    destruct (features_of (b :: df')) as [features|]; [|reflexivity].
    destruct (scale (fillna features)) as [scaled|]; [|reflexivity].
    destruct (model scaled) as [prob|]; [|reflexivity].
    rewrite Hraise. reflexivity. }
  rewrite Hloc. reflexivity.
Qed.

End PredictFacts.

Lemma calculate_features_nonempty (df : list Bar) :
  df <> [] -> calculate_features df = Some (feature_row df (length df - 1)).
Proof. destruct df; [contradiction | reflexivity]. Qed.

(** C2 as the specification states it fails at exactly 60 bars, and at no
    bars: with both artifacts loaded, a 60-bar series gets the sentinel and
    not a model call (the guard is [len(df) > 60]), and an empty series
    gets the 404 error and not the sentinel. *)
Lemma C2_counterexample :
  length (rising_bars 60) = 60%nat /\
  (exists resp,
     Api.predict (fun _ _ => rising_bars 60) (Some bullish_model)
       (Some identity_scaler) "SPY" = Ok resp /\
     Api.p_custom_model resp = insufficient_data) /\
  Hf.custom_block (Some bullish_model) (Some identity_scaler) (rising_bars 60)
    = Ok ("Insufficient Data", Fin 0) /\
  Api.predict (fun _ _ => []) (Some bullish_model) (Some identity_scaler) "SPY"
    = Raise (HTTPException 404 "Stock data not found").
Proof.
  split; [reflexivity|]. split; [|split; reflexivity].
  eexists. split; [vm_compute; reflexivity | reflexivity].
Qed.

Section PredictContract.

Import Api.

Variable get_stock_data : string -> string -> list Bar.
Variable model : FeatureRow -> Exc (list F).
Variable scale : FeatureRow -> Exc FeatureRow.

(** C2 (amended): with model and scaler loaded, for every series of more
    than 60 bars on which the scaler and the model answer, the predictor
    takes the latest feature row, neutralises it, scales it and reports
    the model's call: UP with confidence [p1] if [p1 > 0.5], else DOWN
    with confidence [p0].  For every non-empty series of 60 bars or fewer
    it reports the sentinel "Insufficient Data" with confidence 0.0 in a
    normal answer.  Both hold for the endpoint and for the dashboard
    block. *)
Theorem C2_model_call_above_60_bars (symbol : string) :
  let df := get_stock_data symbol "1y" in
  df <> [] ->
  ((length df <= 60)%nat ->
     (exists resp,
        predict get_stock_data (Some model) (Some scale) symbol = Ok resp /\
        p_custom_model resp = insufficient_data) /\
     Hf.custom_block (Some model) (Some scale) df
       = Ok ("Insufficient Data", Fin 0)) /\
  (forall scaled p0 p1 rest,
     (60 < length df)%nat ->
     scale (fillna (feature_row df (length df - 1))) = Ok scaled ->
     model scaled = Ok (p0 :: p1 :: rest) ->
     (exists resp,
        predict get_stock_data (Some model) (Some scale) symbol = Ok resp /\
        p_custom_model resp = model_call p0 p1) /\
     Hf.custom_block (Some model) (Some scale) df
       = Ok (cm_prediction (model_call p0 p1), cm_confidence (model_call p0 p1))).
Proof.
  cbv zeta. intros Hne. unfold predict, predict_with, Hf.custom_block.
  pose proof (calculate_features_nonempty _ Hne) as Hcf.
  destruct (get_stock_data symbol "1y") as [|b df'] eqn:E; [contradiction|].
  split.
  - intros Hlen.
    assert (Hguard : (60 <? length (b :: df'))%nat = false)
      by (apply Nat.ltb_ge; exact Hlen).
    unfold custom_try. rewrite Hguard, andb_false_r.
    split; [eexists; split; reflexivity | reflexivity].
  - intros scaled p0 p1 rest Hlen Hscale Hmodel.
    assert (Hguard : (60 <? length (b :: df'))%nat = true)
      by (apply Nat.ltb_lt; exact Hlen).
    unfold custom_try. rewrite Hguard, Hcf, Hscale.
    cbn [length Nat.eqb negb andb bindE]. rewrite Hmodel.
    cbn [lookup list_lookup bindE]. unfold model_call.
    destruct (p1 >? Fin (1 # 2))%F; cbn;
      (split; [eexists; split; reflexivity | reflexivity]).
Qed.

End PredictContract.

(** The theorem at 61 rising sessions, the identity scaler and a model
    that gives class 1 the probability 0.7: the call is UP at 0.7. *)
Lemma C2_witness :
  exists resp,
    Api.predict (fun _ _ => rising_bars 61) (Some bullish_model)
      (Some identity_scaler) "SPY" = Ok resp /\
    Api.p_custom_model resp = Api.mkCustom "UP" (Fin (7 # 10)) "AdaBoost".
Proof.
  destruct (C2_model_call_above_60_bars (fun _ _ => rising_bars 61)
              bullish_model identity_scaler "SPY") as [_ H].
  - discriminate.
  - destruct (H (fillna (feature_row (rising_bars 61) 60))
                (Fin (3 # 10)) (Fin (7 # 10)) []) as [Hp _].
    + vm_compute. lia.
    + reflexivity.
    + reflexivity.
    + exact Hp.
Defined.

(** The theorem at 20 rising sessions with no artifacts. *)
Lemma C9_witness :
  exists resp,
    Api.predict_with (fun _ _ => rising_bars 20) None None calculate_features "SPY"
      = Ok resp /\
    Api.p_sma_20 resp = Api.p_current_price resp /\
    Api.p_prediction resp = "DOWN".
Proof.
  apply (C9_short_series_baseline_down (fun _ _ => rising_bars 20)
           None None calculate_features "SPY").
  - discriminate.
  - vm_compute. lia.
Defined.

(** The theorem at 61 rising sessions and a scaler that rejects the row. *)
Lemma C10_witness :
  exists resp,
    Api.predict (fun _ _ => rising_bars 61) (Some bullish_model)
      (Some broken_scaler) "SPY" = Ok resp /\
    Api.p_custom_model resp = insufficient_data /\
    Api.p_prediction resp = "UP".
Proof.
  destruct (C10_custom_model_failure_is_contained (fun _ _ => rising_bars 61)
              bullish_model broken_scaler calculate_features "SPY") as [H _].
  - vm_compute. lia.
  - exact I.
  - eexists. split; [exact H|]. split; [reflexivity | vm_compute; reflexivity].
Defined.

(** ** Sentiment aggregation *)

Section SentimentFacts.

Import Sentiment.

Lemma snd_zip_take {A B} (l1 : list A) (l2 : list B) :
  map snd (zip l1 l2) = take (length l1) l2.
Proof.
  revert l2. induction l1 as [|a l1 IH]; intros [|b l2]; cbn; try reflexivity.
  f_equal. apply IH.
Qed.

(** The accumulator of the loop is the start value plus the signed sum
    of what has been visited. *)
Lemma aggregate_loop_from (pairs : list (string * Classified)) acc news :
  (foldl (fun '(sentiment_score, analyzed_news) '(headline, result) =>
            (sentiment_score + signed_score result,
             analyzed_news ++ [mkNews headline (label result) (score result)]))
         (acc, news) pairs).1
  == acc + sum_signed (map snd pairs).
Proof.
  revert acc news. induction pairs as [|[h r] pairs IH]; intros acc news.
  - cbn. unfold sum_signed. cbn. lra.
  - cbn [foldl map snd]. rewrite IH. unfold sum_signed. cbn [map foldr]. lra.
Qed.

Lemma sentiment_score_aggregate headlines results :
  sentiment_score (aggregate headlines results)
  = (aggregate_loop headlines results).1.
Proof.
  unfold aggregate. destruct (aggregate_loop headlines results). reflexivity.
Qed.




End SentimentFacts.


(** The theorem at 61 sessions that close alternately at 101 and 100: in
    the last window the average loss is 1/2. *)
Lemma C3_witness :
  exists r, RSI (zigzag_bars 61) !! 60%nat = Some (Fin r) /\ 0 <= r <= 100.
Proof.
  destruct (C3_rsi_range_and_neutralisation (zigzag_bars 61) 60 (7 # 14))
    as (g & _ & _ & _ & H & _).
  - vm_compute. reflexivity.
  - apply H. reflexivity.
Defined.

(* ===================================================================== *)
(** * Further properties of the code                                      *)
(* ===================================================================== *)

(** ** Warm-up of the moving averages *)

Lemma sum_fin (xs : list F) :
  Forall (fun x => exists q, x = Fin q) xs -> exists s, Series.sum xs = Fin s.
Proof.
  induction 1 as [|x xs [q ->] _ [s IH]].
  - exists 0. reflexivity.
  - change (Series.sum (Fin q :: xs)) with (add (Fin q) (Series.sum xs)).
    rewrite IH. eexists. reflexivity.
Qed.

Lemma mean_at_fin (w : nat) xs t :
  (0 < w)%nat -> Forall (fun x => exists q, x = Fin q) xs ->
  is_nan (mean_at w xs t) = (t + 1 <? w)%nat.
Proof.
  intros Hw Hxs. unfold mean_at. destruct (t + 1 <? w)%nat; [reflexivity|].
  destruct (sum_fin (window w t xs)) as [s ->].
  { unfold window. apply Forall_take, Forall_drop, Hxs. }
  assert (Hpos : 0 < inject_Z (Z.of_nat w)).
  { change 0 with (inject_Z 0). rewrite <- Zlt_Qlt. lia. }
  cbn. rewrite (Qzero_b_pos _ Hpos). reflexivity.
Qed.

Lemma cell_rolling_mean_Close (w : nat) (df : list Bar) (t : nat) :
  (0 < w)%nat -> (t < length df)%nat ->
  is_nan (cell (rolling_mean w (Close df)) t) = (t + 1 <? w)%nat.
Proof.
  intros Hw Ht. unfold cell. rewrite lookup_rolling_mean, length_Close.
  rewrite decide_True by exact Ht. cbn [default].
  apply mean_at_fin; [exact Hw | apply Close_fin].
Qed.

Lemma lookup_dist close sma t :
  dist close sma !! t =
    match close !! t, sma !! t with
    | Some c, Some s => Some ((c - s) / s)%F
    | _, _ => None
    end.
Proof.
  unfold dist. rewrite lookup_zip_with.
  destruct (close !! t); [|reflexivity]. destruct (sma !! t); reflexivity.
Qed.

(** X1: the 20-bar average of a frame is undefined on rows 0..18 and a
    number from row 19 on; the 50-bar average is undefined on rows 0..48
    and a number from row 49 on; and the distance to the 20-bar average is
    undefined on rows 0..18. *)
Theorem sma_warm_up (df : list Bar) (t : nat) :
  (t < length df)%nat ->
  (is_nan (cell (SMA_20 df) t) = true <-> (t < 19)%nat) /\
  (is_nan (cell (SMA_50 df) t) = true <-> (t < 49)%nat) /\
  ((t < 19)%nat -> cell (Dist_SMA_20 df) t = NaN) /\
  ((t < 49)%nat -> cell (Dist_SMA_50 df) t = NaN).
Proof.
  intros Ht.
  assert (H20 : is_nan (cell (SMA_20 df) t) = (t + 1 <? 20)%nat)
    by (apply cell_rolling_mean_Close; [lia | exact Ht]).
  assert (H50 : is_nan (cell (SMA_50 df) t) = (t + 1 <? 50)%nat)
    by (apply cell_rolling_mean_Close; [lia | exact Ht]).
  assert (Hdist : forall sma, is_nan (cell sma t) = true ->
                    cell (dist (Close df) sma) t = NaN).
  { intros sma Hn. unfold cell in *. rewrite lookup_dist.
    destruct (Close df !! t) as [c|]; [|reflexivity].
    destruct (sma !! t) as [[| | |]|]; cbn in Hn; try discriminate; [|reflexivity].
    destruct c; reflexivity. }
  split; [rewrite H20, Nat.ltb_lt; lia|].
  split; [rewrite H50, Nat.ltb_lt; lia|].
  split; intros Hlt.
  - apply Hdist. rewrite H20. apply Nat.ltb_lt. lia.
  - apply Hdist. rewrite H50. apply Nat.ltb_lt. lia.
Qed.

(** The theorem at row 19 of 61 rising sessions, the first row with a
    20-bar average. *)
Lemma sma_warm_up_witness :
  is_nan (cell (SMA_20 (rising_bars 61)) 19) = false.
Proof.
  destruct (sma_warm_up (rising_bars 61) 19) as [H _].
  - vm_compute. lia.
  - destruct (is_nan (cell (SMA_20 (rising_bars 61)) 19)); [|reflexivity].
    destruct H as [H _]. specialize (H eq_refl). lia.
Defined.

(** ** Shape of the training table *)

Lemma row_has_nan_warm_up (df : list Bar) (t : nat) :
  (t < length df)%nat -> (t < 49)%nat -> row_has_nan df t = true.
Proof.
  intros Ht H49. unfold row_has_nan, float_cells.
  assert (H50 : is_nan (cell (SMA_50 df) t) = true).
  { unfold SMA_50. rewrite cell_rolling_mean_Close by (lia || exact Ht).
    apply Nat.ltb_lt. lia. }
  cbn [existsb]. rewrite H50. rewrite !orb_true_r. reflexivity.
Qed.

Lemma dropna_sorted (df : list Bar) : StronglySorted Nat.lt (dropna df).
Proof.
  unfold dropna. generalize 0%nat.
  induction (length df) as [|n IH]; intros start; cbn [seq List.filter].
  - constructor.
  - assert (Hrest : Forall (Nat.lt start)
              (List.filter (fun t => negb (row_has_nan df t)) (seq (S start) n))).
    { apply Forall_forall. intros x Hx.
      apply list_elem_of_In, filter_In in Hx. destruct Hx as [Hx _].
      apply in_seq in Hx. unfold Nat.lt. lia. }
    destruct (negb (row_has_nan df start)).
    + constructor; [apply IH | exact Hrest].
    + apply IH.
Qed.

(** X2: the training table never holds a row of the first 49 sessions,
    its rows come in chronological order without repetition, [X] and [y]
    carry the same index, and a non-empty frame of fewer than 50 sessions
    gives an empty table, not an error. *)
Theorem training_table_shape (df : list Bar) (X : XFrame) (y : ySeries) :
  prepare_data_of df = Ok (X, y) ->
  map fst X = map fst y /\
  StronglySorted Nat.lt (map fst y) /\
  Forall (fun t => (49 <= t < length df)%nat) (map fst y) /\
  (length y <= length df - 49)%nat /\
  ((length df < 50)%nat -> X = [] /\ y = []).
Proof.
  intros H. destruct df as [|b df']; [discriminate|].
  unfold prepare_data_of in H. injection H as <- <-.
  set (df := b :: df') in *.
  rewrite !map_map. cbn [fst].
  assert (Hid : map (fun t : nat => t) (dropna df) = dropna df) by apply map_id.
  rewrite Hid.
  assert (Hrange : Forall (fun t => (49 <= t < length df)%nat) (dropna df)).
  { apply Forall_forall. intros t Ht. apply elem_of_dropna in Ht.
    destruct Ht as [Hlt Hnan].
    destruct (le_lt_dec 49 t) as [Hle|Hlt49]; [lia|].
    rewrite (row_has_nan_warm_up df t Hlt Hlt49) in Hnan. discriminate. }
  pose proof (dropna_sorted df) as Hsorted.
  assert (Hlen : (length (dropna df) <= length df - 49)%nat).
  { assert (Hgen : forall l lo hi,
              StronglySorted Nat.lt l -> Forall (fun t => (lo <= t < hi)%nat) l ->
              (length l <= hi - lo)%nat).
    { induction l as [|x l IH]; intros lo hi Hs Hr; cbn; [lia|].
      inversion Hs as [|? ? Hs' Hx]; subst. inversion Hr as [|? ? Hx' Hr']; subst.
      assert (Hr'' : Forall (fun t => (S x <= t < hi)%nat) l).
      { apply Forall_forall. intros z Hz. rewrite Forall_forall in Hx, Hr'.
        specialize (Hx z Hz). specialize (Hr' z Hz). unfold Nat.lt in Hx. lia. }
      specialize (IH (S x) hi Hs' Hr''). lia. }
    apply (Hgen _ 49%nat (length df) Hsorted Hrange). }
  split; [reflexivity|]. split; [exact Hsorted|]. split; [exact Hrange|].
  split; [rewrite length_map; exact Hlen|].
  intros Hshort.
  assert (Hnil : dropna df = []).
  { destruct (dropna df) as [|t l]; [reflexivity|].
    change (length (t :: l)) with (S (length l)) in Hlen. lia. }
  rewrite Hnil. split; reflexivity.
Qed.

(** The theorem at 52 sessions that close alternately at 101 and 100. *)
Lemma training_table_shape_witness :
  exists X y, prepare_data_of (zigzag_bars 52) = Ok (X, y) /\
              (length y <= 3)%nat.
Proof.
  destruct (prepare_data_of (zigzag_bars 52)) as [[X y]|e] eqn:E.
  - exists X, y. split; [reflexivity|].
    destruct (training_table_shape (zigzag_bars 52) X y E) as (_ & _ & _ & H & _).
    exact H.
  - vm_compute in E. discriminate.
Defined.

(** ** The features of a row depend on the past only *)

Lemma shift_take (n : nat) (xs : list F) : shift (take n xs) = take n (shift xs).
Proof.
  destruct xs as [|x xs]; [destruct n; reflexivity|].
  destruct n as [|n]; [reflexivity|].
  unfold shift. cbn [take]. f_equal.
  rewrite !removelast_firstn_len. cbn [length Init.Nat.pred].
  rewrite length_take. rewrite take_take.
  change (x :: take n xs) with (take (S n) (x :: xs)).
  rewrite take_take. f_equal. lia.
Qed.

Lemma zip_with_take {A B C} (f : A -> B -> C) (n : nat) l1 l2 :
  zip_with f (take n l1) (take n l2) = take n (zip_with f l1 l2).
Proof.
  revert l1 l2. induction n as [|n IH]; intros [|a l1] [|b l2]; cbn; try reflexivity.
  f_equal. apply IH.
Qed.

Lemma diff_take n xs : diff (take n xs) = take n (diff xs).
Proof. unfold diff. rewrite shift_take. apply zip_with_take. Qed.

Lemma pct_change_take n xs : pct_change (take n xs) = take n (pct_change xs).
Proof. unfold pct_change. rewrite shift_take. apply zip_with_take. Qed.

Lemma where_or_zero_take cond n xs :
  where_or_zero cond (take n xs) = take n (where_or_zero cond xs).
Proof. unfold where_or_zero. apply fmap_take. Qed.

Lemma mean_at_take (w n t : nat) xs :
  (t < n)%nat -> mean_at w (take n xs) t = mean_at w xs t.
Proof.
  intros Ht. unfold mean_at. destruct (t + 1 <? w)%nat eqn:E; [reflexivity|].
  apply Nat.ltb_ge in E. f_equal. f_equal. unfold window.
  rewrite !take_drop_commute, take_take. f_equal. f_equal. lia.
Qed.

Lemma rolling_mean_take (w n : nat) xs :
  rolling_mean w (take n xs) = take n (rolling_mean w xs).
Proof.
  apply list_eq. intros t.
  rewrite lookup_rolling_mean, length_take.
  destruct (decide (t < n)%nat) as [Hn|Hn].
  - rewrite lookup_take_lt by exact Hn. rewrite lookup_rolling_mean.
    destruct (decide (t < length xs)%nat).
    + rewrite decide_True by lia. rewrite mean_at_take by exact Hn. reflexivity.
    + rewrite decide_False by lia. reflexivity.
  - rewrite decide_False by lia. symmetry. apply lookup_ge_None_2.
    rewrite length_take. lia.
Qed.

Lemma Close_take n df : Close (take n df) = take n (Close df).
Proof. unfold Close. apply fmap_take. Qed.

Lemma Volume_take n df : Volume (take n df) = take n (Volume df).
Proof. unfold Volume. apply fmap_take. Qed.

Lemma cell_take (n t : nat) (col : list F) :
  (t < n)%nat -> cell (take n col) t = cell col t.
Proof. intros Ht. unfold cell. rewrite lookup_take_lt by exact Ht. reflexivity. Qed.

Lemma map_take {A B} (f : A -> B) (n : nat) (l : list A) :
  map f (take n l) = take n (map f l).
Proof. symmetry. apply firstn_map. Qed.

Lemma rsi_gain_take w n data :
  rsi_gain w (take n data) = take n (rsi_gain w data).
Proof.
  unfold rsi_gain. rewrite diff_take, where_or_zero_take. apply rolling_mean_take.
Qed.

Lemma rsi_loss_take w n data :
  rsi_loss w (take n data) = take n (rsi_loss w data).
Proof.
  unfold rsi_loss. rewrite diff_take, where_or_zero_take, map_take.
  apply rolling_mean_take.
Qed.

Lemma calculate_rsi_take w n data :
  calculate_rsi (take n data) w = take n (calculate_rsi data w).
Proof.
  unfold calculate_rsi. rewrite rsi_gain_take, rsi_loss_take, zip_with_take.
  apply map_take.
Qed.

Lemma dist_take n close sma :
  dist (take n close) (take n sma) = take n (dist close sma).
Proof. unfold dist. apply zip_with_take. Qed.

Lemma feature_row_take (df : list Bar) (n t : nat) :
  (t < n)%nat -> feature_row (take n df) t = feature_row df t.
Proof.
  intros Ht. unfold feature_row, Returns, Dist_SMA_20, Dist_SMA_50, SMA_20,
    SMA_50, RSI, Vol_Change.
  rewrite Close_take, Volume_take, !pct_change_take, !rolling_mean_take,
    !dist_take, calculate_rsi_take.
  rewrite !cell_take by exact Ht. reflexivity.
Qed.

(** X3: no feature looks ahead.  The features of row [t] of a frame are
    the features of the last row of the frame cut after row [t]: what the
    training table holds for a session is what [calculate_features]
    returns at inference time when that session is the latest one.  The
    label is different: on the frame cut after row [t] it is 0. *)
Theorem features_use_past_only (df : list Bar) (t : nat) :
  (t < length df)%nat ->
  calculate_features (take (S t) df) = Some (feature_row df t) /\
  (forall later : list Bar,
     feature_row (take (S t) df ++ later) t = feature_row df t) /\
  label_of (take (S t) df) t = 0%Z.
Proof.
  intros Ht.
  assert (Hlen : length (take (S t) df) = S t) by (rewrite length_take; lia).
  split; [|split].
  - rewrite calculate_features_nonempty.
    + rewrite Hlen. replace (S t - 1)%nat with t by lia.
      rewrite feature_row_take by lia. reflexivity.
    + intros E. rewrite E in Hlen. discriminate.
  - intros later.
    rewrite <- (feature_row_take df (S t) t) by lia.
    rewrite <- (feature_row_take (take (S t) df ++ later) (S t) t) by lia.
    rewrite take_app_length' by (symmetry; exact Hlen). reflexivity.
  - unfold label_of. rewrite (lookup_ge_None_2 _ (S t)) by lia.
    destruct (take (S t) df !! t); reflexivity.
Qed.

(** The theorem at row 55 of 61 sessions that close alternately. *)
Lemma features_use_past_only_witness :
  calculate_features (take 56 (zigzag_bars 61))
  = Some (feature_row (zigzag_bars 61) 55).
Proof.
  apply (features_use_past_only (zigzag_bars 61) 55).
  vm_compute. lia.
Defined.

(** ** What [build_model] leaves behind *)

Section BuildFacts.

Import Training TrainingSpec.

Variables Model Scaler : Type.
Variable history : string -> string -> list Bar.
Variable train_test_split :
  XFrame -> ySeries -> Exc ((XFrame * XFrame) * (ySeries * ySeries)).
Variable scaler_fit : XFrame -> Exc Scaler.
Variable scaler_transform : Scaler -> XFrame -> Exc XFrame.
Variable model_fit : XFrame -> ySeries -> Exc Model.
Variable model_predict : Model -> XFrame -> Exc (list Z).
Variable accuracy_score : ySeries -> list Z -> Exc F.
Variable now_isoformat : string.
Variable show_accuracy : F -> string.
Variable writable : string -> bool.

Local Abbreviation run_build :=
  (build_model Model Scaler history train_test_split scaler_fit
     scaler_transform model_fit model_predict accuracy_score
     now_isoformat show_accuracy writable).

Local Abbreviation fitted :=
  (fit_and_evaluate Model Scaler history train_test_split scaler_fit
     scaler_transform model_fit model_predict accuracy_score).

Local Ltac reduce_io := cbn [fst snd bindE files stdout].

Local Ltac step_through :=
  unfold build_model, fit_and_evaluate, try_except, prepare_data, bind,
    print, lift, dump;
  reduce_io;
  destruct (prepare_data_of (history "SPY" "5y")) as [[X y]|?];
    reduce_io; [|try reflexivity];
  [destruct (train_test_split X y) as [[[X_train X_test] [y_train y_test]]|?];
    reduce_io; [|try reflexivity];
   [destruct (scaler_fit X_train) as [scaler|?]; reduce_io; [|try reflexivity];
    [destruct (scaler_transform scaler X_train) as [X_train_scaled|?];
      reduce_io; [|try reflexivity];
     [destruct (scaler_transform scaler X_test) as [X_test_scaled|?];
       reduce_io; [|try reflexivity];
      [destruct (model_fit X_train_scaled y_train) as [model|?];
        reduce_io; [|try reflexivity];
       [destruct (model_predict model X_test_scaled) as [preds|?];
         reduce_io; [|try reflexivity];
        [destruct (accuracy_score y_test preds) as [acc|?];
          reduce_io; [|try reflexivity];
         [destruct (writable "adaboost_model.joblib") eqn:?; reduce_io;
          [destruct (writable "scaler.joblib") eqn:?; reduce_io;
           [destruct (writable "model_metadata.json") eqn:?; reduce_io|]|]
         |..]|..]|..]|..]|..]|..]|..]|..].

(** The files after a run, from the outcome of the fit and the state of
    the disk. *)
Lemma build_model_files (w : World Model Scaler) :
  files (run_build w).1 =
    match fitted with
    | Raise _ => files w
    | Ok (model, scaler, acc) =>
        if writable "adaboost_model.joblib" then
          let with_model := <["adaboost_model.joblib" := ModelFile model]> (files w) in
          if writable "scaler.joblib" then
            let with_scaler := <["scaler.joblib" := ScalerFile scaler]> with_model in
            if writable "model_metadata.json" then
              <["model_metadata.json" :=
                  MetadataFile "AdaBoostClassifier" now_isoformat acc
                    ["Returns"; "Dist_SMA_20"; "Dist_SMA_50"; "RSI"; "Vol_Change"]]>
                with_scaler
            else with_scaler
          else with_model
        else files w
    end.
Proof.
  step_through; reflexivity.
Qed.

(** X4: [build_model] never raises: whatever the market data, the
    library calls and the disk do, it returns normally. *)
Theorem build_model_never_raises (w : World Model Scaler) :
  (run_build w).2 = Ok tt.
Proof. step_through; reflexivity. Qed.

(** X5: when a step before the save (fetch and prepare, split, scale,
    fit, evaluate) raises, no file is written or changed, and the last
    line printed is the error report. *)
Theorem build_model_failed_fit_writes_nothing (w : World Model Scaler) (e : PyErr) :
  fitted = Raise e ->
  files (run_build w).1 = files w /\
  last (stdout (run_build w).1)
    = Some ("Error during training: " +:+ str_of_exn e).
Proof.
  intros H. split.
  - rewrite build_model_files, H. reflexivity.
  - revert H. step_through; intros H; try discriminate;
      injection H as <-; rewrite !last_snoc; reflexivity.
Qed.

(** X6: when every step answers and the three paths can be written, the
    run leaves the model fitted on the scaled training split, the scaler
    fitted on the training split alone, and the metadata with the
    accuracy on the held-out split and the five feature names; it ends
    with the completion message. *)
Theorem build_model_saves_the_trained_pair (w : World Model Scaler)
    X y X_train X_test y_train y_test scaler X_train_scaled X_test_scaled
    model preds acc :
  prepare_data_of (history "SPY" "5y") = Ok (X, y) ->
  train_test_split X y = Ok ((X_train, X_test), (y_train, y_test)) ->
  scaler_fit X_train = Ok scaler ->
  scaler_transform scaler X_train = Ok X_train_scaled ->
  scaler_transform scaler X_test = Ok X_test_scaled ->
  model_fit X_train_scaled y_train = Ok model ->
  model_predict model X_test_scaled = Ok preds ->
  accuracy_score y_test preds = Ok acc ->
  writable "adaboost_model.joblib" = true ->
  writable "scaler.joblib" = true ->
  writable "model_metadata.json" = true ->
  files (run_build w).1 !! "adaboost_model.joblib" = Some (ModelFile model) /\
  files (run_build w).1 !! "scaler.joblib" = Some (ScalerFile scaler) /\
  files (run_build w).1 !! "model_metadata.json"
    = Some (MetadataFile "AdaBoostClassifier" now_isoformat acc
              ["Returns"; "Dist_SMA_20"; "Dist_SMA_50"; "RSI"; "Vol_Change"]) /\
  (forall path, path <> "adaboost_model.joblib" -> path <> "scaler.joblib" ->
     path <> "model_metadata.json" ->
     files (run_build w).1 !! path = files w !! path) /\
  last (stdout (run_build w).1)
    = Some "Build Complete! Model is ready for production.".
Proof.
  intros Hp Hs Hf Ht1 Ht2 Hm Hpr Ha Hw1 Hw2 Hw3.
  assert (Hfit : fitted = Ok (model, scaler, acc)).
  { unfold fit_and_evaluate. rewrite Hp. cbn [bindE]. rewrite Hs. cbn [bindE].
    rewrite Hf. cbn [bindE]. rewrite Ht1. cbn [bindE]. rewrite Ht2. cbn [bindE].
    rewrite Hm. cbn [bindE]. rewrite Hpr. cbn [bindE]. rewrite Ha. reflexivity. }
  rewrite build_model_files, Hfit, Hw1, Hw2, Hw3. cbv zeta.
  split; [|split; [|split; [|split]]].
  - rewrite lookup_insert_ne by discriminate.
    rewrite lookup_insert_ne by discriminate. apply lookup_insert_eq.
  - rewrite lookup_insert_ne by discriminate. apply lookup_insert_eq.
  - apply lookup_insert_eq.
  - intros path H1 H2 H3. rewrite !lookup_insert_ne by congruence. reflexivity.
  - unfold build_model, try_except, prepare_data, bind, print, lift, dump.
    reduce_io. rewrite Hp. reduce_io. rewrite Hs. reduce_io. rewrite Hf. reduce_io.
    rewrite Ht1. reduce_io. rewrite Ht2. reduce_io. rewrite Hm. reduce_io.
    rewrite Hpr. reduce_io. rewrite Ha. reduce_io. rewrite Hw1. reduce_io.
    rewrite Hw2. reduce_io. rewrite Hw3. reduce_io. apply last_snoc.
Qed.

(** X7: the save is not atomic.  When the fit succeeds and the model
    file can be written but the scaler file cannot, the run still returns
    normally, the new model is on disk, and the scaler and metadata files
    are the old ones: the persisted pair no longer belongs together. *)
Theorem build_model_can_write_the_model_alone (w : World Model Scaler)
    model scaler acc :
  fitted = Ok (model, scaler, acc) ->
  writable "adaboost_model.joblib" = true ->
  writable "scaler.joblib" = false ->
  (run_build w).2 = Ok tt /\
  files (run_build w).1 !! "adaboost_model.joblib" = Some (ModelFile model) /\
  files (run_build w).1 !! "scaler.joblib" = files w !! "scaler.joblib" /\
  files (run_build w).1 !! "model_metadata.json" = files w !! "model_metadata.json".
Proof.
  intros Hfit Hw1 Hw2. split; [apply build_model_never_raises|].
  rewrite build_model_files, Hfit, Hw1, Hw2. cbv zeta.
  split; [apply lookup_insert_eq|].
  split; rewrite lookup_insert_ne by discriminate; reflexivity.
Qed.

End BuildFacts.

(** The theorem when the market-data source has nothing. *)
Lemma build_model_failed_fit_witness :
  Training.files
    (Training.build_model unit unit (fun _ _ => []) toy_split
       (fun _ => Ok tt) (fun _ X => Ok X) (fun _ _ => Ok tt) toy_predict
       toy_accuracy "2024-01-01T00:00:00" (fun _ => "0.5000") (fun _ => true)
       (Training.mkWorld ∅ [])).1 = ∅.
Proof.
  apply (build_model_failed_fit_writes_nothing unit unit (fun _ _ => []) toy_split
           (fun _ => Ok tt) (fun _ X => Ok X) (fun _ _ => Ok tt) toy_predict
           toy_accuracy "2024-01-01T00:00:00" (fun _ => "0.5000") (fun _ => true)
           (Training.mkWorld ∅ []) (ValueError "No data fetched.")).
  reflexivity.
Defined.

(** The theorem on 60 alternating sessions with every path writable. *)
Lemma build_model_saves_witness :
  Training.files
    (Training.build_model unit unit toy_history toy_split
       (fun _ => Ok tt) (fun _ X => Ok X) (fun _ _ => Ok tt) toy_predict
       toy_accuracy "2024-01-01T00:00:00" (fun _ => "0.5000") (fun _ => true)
       (Training.mkWorld ∅ [])).1 !! "scaler.joblib"
  = Some (Training.ScalerFile tt).
Proof.
  apply (build_model_saves_the_trained_pair unit unit toy_history toy_split
           (fun _ => Ok tt) (fun _ X => Ok X) (fun _ _ => Ok tt) toy_predict
           toy_accuracy "2024-01-01T00:00:00" (fun _ => "0.5000") (fun _ => true)
           (Training.mkWorld ∅ [])
           toy_table.1 toy_table.2
           (take 8 toy_table.1) (drop 8 toy_table.1)
           (take 8 toy_table.2) (drop 8 toy_table.2)
           tt (take 8 toy_table.1) (drop 8 toy_table.1) tt
           (map (fun _ => 1%Z) (drop 8 toy_table.1)) (Fin (1 # 2)));
    reflexivity.
Defined.

(** The theorem on the same run when only the model path can be written. *)
Lemma build_model_model_alone_witness :
  Training.files
    (Training.build_model unit unit toy_history toy_split
       (fun _ => Ok tt) (fun _ X => Ok X) (fun _ _ => Ok tt) toy_predict
       toy_accuracy "2024-01-01T00:00:00" (fun _ => "0.5000") only_model_writable
       (Training.mkWorld ∅ [])).1 !! "scaler.joblib" = None.
Proof.
  destruct (build_model_can_write_the_model_alone unit unit toy_history toy_split
           (fun _ => Ok tt) (fun _ X => Ok X) (fun _ _ => Ok tt) toy_predict
           toy_accuracy "2024-01-01T00:00:00" (fun _ => "0.5000") only_model_writable
           (Training.mkWorld ∅ []) tt tt (Fin (1 # 2))) as (_ & _ & H & _).
  - vm_compute. reflexivity.
  - reflexivity.
  - reflexivity.
  - rewrite H. reflexivity.
Defined.

(** ** The ratio record, field by field *)

Section RatioTable.

Import Analysis ScanSpec.

Lemma get_val_normalized info key :
  get_val info key (Fin 0) = Ok (normalized (info !! key)).
Proof.
  unfold get_val, py_or, normalized.
  destruct (info !! key) as [[|x]|]; cbn; try reflexivity.
  destruct (truthy x); reflexivity.
Qed.

Variable get_financials : string -> option Financials.

(** The record of a symbol whose payload has entries. *)
Lemma calculate_ratios_payload symbol info :
  get_financials symbol = Some (mkFinancials (Some info)) ->
  info <> ∅ ->
  calculate_ratios get_financials symbol =
    Ok (list_to_map
          [ ("roe", (normalized (info !! "returnOnEquity") * Fin 100)%F);
            ("roa", (normalized (info !! "returnOnAssets") * Fin 100)%F);
            ("net_profit_margin", (normalized (info !! "profitMargins") * Fin 100)%F);
            ("gross_profit_margin", (normalized (info !! "grossMargins") * Fin 100)%F);
            ("current_ratio", normalized (info !! "currentRatio"));
            ("quick_ratio", normalized (info !! "quickRatio"));
            ("cash_ratio", Fin 0);
            ("debt_to_equity",
               if truthy (normalized (info !! "debtToEquity"))
               then (normalized (info !! "debtToEquity") / Fin 100)%F
               else Fin 0);
            ("debt_to_assets", Fin 0);
            ("equity_multiplier", Fin 0);
            ("asset_turnover", Fin 0);
            ("inventory_turnover", Fin 0);
            ("receivables_turnover", Fin 0);
            ("pe_ratio", normalized (info !! "trailingPE"));
            ("pb_ratio", normalized (info !! "priceToBook"));
            ("market_cap", normalized (info !! "marketCap")) ]).
Proof.
  intros Hg Hne. unfold calculate_ratios. rewrite Hg. cbn [Analysis.info].
  rewrite decide_False by exact Hne.
  rewrite !get_val_normalized. cbn [bindE].
  destruct (truthy (normalized (info !! "debtToEquity"))); reflexivity.
Qed.

(** Without a payload the record is [_empty_ratios]. *)
Lemma calculate_ratios_no_payload symbol :
  (get_financials symbol = None \/
   get_financials symbol = Some (mkFinancials None) \/
   get_financials symbol = Some (mkFinancials (Some ∅))) ->
  calculate_ratios get_financials symbol = Ok _empty_ratios.
Proof.
  unfold calculate_ratios. intros [-> | [-> | ->]]; reflexivity.
Qed.

Lemma financials_cases symbol :
  (get_financials symbol = None \/
   get_financials symbol = Some (mkFinancials None) \/
   get_financials symbol = Some (mkFinancials (Some ∅))) \/
  exists info, get_financials symbol = Some (mkFinancials (Some info)) /\ info <> ∅.
Proof.
  destruct (get_financials symbol) as [[[info|]]|]; auto.
  destruct (decide (info = ∅)) as [->|Hne]; [auto | right; eauto].
Qed.

(** X8: six of the sixteen ratios are never computed: whatever the
    provider answers, the cash ratio, debt to assets, the equity
    multiplier and the three turnovers are 0.0. *)
Theorem uncomputed_ratios_are_zero symbol (r : gmap string F) :
  calculate_ratios get_financials symbol = Ok r ->
  Forall (fun name => r !! name = Some (Fin 0)) uncomputed_ratios.
Proof.
  intros Hr. destruct (financials_cases symbol) as [Hno | (info & Hg & Hne)].
  - rewrite (calculate_ratios_no_payload symbol Hno) in Hr. injection Hr as <-.
    unfold uncomputed_ratios. repeat constructor; vm_compute; reflexivity.
  - rewrite (calculate_ratios_payload symbol info Hg Hne) in Hr. injection Hr as <-.
    unfold uncomputed_ratios. repeat constructor; reflexivity.
Qed.

(** X9: how a payload with entries maps to the record.  Returns and
    margins are the provider's fractions times 100; the current and quick
    ratios, P/E, P/B and the market capitalisation are taken as they are;
    debt to equity is the provider's per-cent figure divided by 100; each
    after absent, null and zero have become 0.0. *)
Theorem ratio_mapping symbol info (r : gmap string F) :
  get_financials symbol = Some (mkFinancials (Some info)) ->
  info <> ∅ ->
  calculate_ratios get_financials symbol = Ok r ->
  r !! "roe" = Some (normalized (info !! "returnOnEquity") * Fin 100)%F /\
  r !! "roa" = Some (normalized (info !! "returnOnAssets") * Fin 100)%F /\
  r !! "net_profit_margin" = Some (normalized (info !! "profitMargins") * Fin 100)%F /\
  r !! "gross_profit_margin" = Some (normalized (info !! "grossMargins") * Fin 100)%F /\
  r !! "current_ratio" = Some (normalized (info !! "currentRatio")) /\
  r !! "quick_ratio" = Some (normalized (info !! "quickRatio")) /\
  r !! "pe_ratio" = Some (normalized (info !! "trailingPE")) /\
  r !! "pb_ratio" = Some (normalized (info !! "priceToBook")) /\
  r !! "market_cap" = Some (normalized (info !! "marketCap")) /\
  r !! "debt_to_equity"
    = Some (if truthy (normalized (info !! "debtToEquity"))
            then (normalized (info !! "debtToEquity") / Fin 100)%F
            else Fin 0).
Proof.
  intros Hg Hne Hr. rewrite (calculate_ratios_payload symbol info Hg Hne) in Hr.
  injection Hr as <-. repeat split; reflexivity.
Qed.

(** X10: a payload that has entries but no figure under any of the ten
    keys read (each absent, null or zero) gives the same record as no
    payload at all. *)
Theorem figureless_payload_is_empty_ratios symbol info :
  get_financials symbol = Some (mkFinancials (Some info)) ->
  Forall (fun key => missing (info !! key)) raw_keys ->
  calculate_ratios get_financials symbol = Ok _empty_ratios.
Proof.
  intros Hg Hmiss.
  destruct (decide (info = ∅)) as [->|Hne].
  { apply calculate_ratios_no_payload. auto. }
  rewrite (calculate_ratios_payload symbol info Hg Hne).
  assert (Hz : forall key, key ∈ raw_keys -> normalized (info !! key) = Fin 0).
  { intros key Hin. rewrite Forall_forall in Hmiss. specialize (Hmiss key Hin).
    pose proof (get_val_missing info key Hmiss) as H.
    rewrite get_val_normalized in H. injection H as ->. reflexivity. }
  rewrite !Hz by (unfold raw_keys; set_solver).
  rewrite empty_ratios_eq. do 2 f_equal; reflexivity.
Qed.

End RatioTable.

(** The theorem at a payload with a few figures. *)
Lemma uncomputed_ratios_witness :
  exists r, Analysis.calculate_ratios sample_provider "AAPL" = Ok r /\
            r !! "cash_ratio" = Some (Fin 0).
Proof.
  destruct (calculate_ratios_ok sample_provider "AAPL") as (r & Hr & _).
  exists r. split; [exact Hr|].
  pose proof (uncomputed_ratios_are_zero sample_provider "AAPL" r Hr) as H.
  apply Forall_inv in H. exact H.
Defined.

Lemma sample_info_nonempty : sample_info <> ∅.
Proof.
  intros E. apply (f_equal (fun m => m !! "trailingPE")) in E.
  vm_compute in E. discriminate.
Qed.

(** The theorem at a return on equity of 0.15 and a debt-to-equity figure
    of 150 per cent. *)
Lemma ratio_mapping_witness :
  exists r, Analysis.calculate_ratios sample_provider "AAPL" = Ok r /\
            r !! "roe" = Some (Fin ((3 # 20) * 100)) /\
            r !! "debt_to_equity" = Some (Fin (150 / 100)) /\
            r !! "pb_ratio" = Some (Fin 0).
Proof.
  destruct (calculate_ratios_ok sample_provider "AAPL") as (r & Hr & _).
  exists r. split; [exact Hr|].
  destruct (ratio_mapping sample_provider "AAPL" sample_info r)
    as (Hroe & _ & _ & _ & _ & _ & _ & Hpb & _ & Hde).
  - reflexivity.
  - exact sample_info_nonempty.
  - exact Hr.
  - rewrite Hroe, Hpb, Hde. repeat split; vm_compute; reflexivity.
Defined.

(** The theorem at a payload with a null P/E, a zero market
    capitalisation and a name. *)
Lemma figureless_payload_witness :
  Analysis.calculate_ratios figureless_provider "AAPL" = Ok Analysis._empty_ratios.
Proof.
  apply (figureless_payload_is_empty_ratios figureless_provider "AAPL" figureless_info).
  - reflexivity.
  - unfold raw_keys, ScanSpec.missing.
    repeat (apply Forall_cons_2;
              [ first [ left; vm_compute; reflexivity
                      | right; left; vm_compute; reflexivity
                      | right; right; exists 0; split;
                        [vm_compute; reflexivity | reflexivity] ] |]).
    apply Forall_nil_2.
Defined.

(** ** The scan for any limit *)

Section ScanLimits.

Import Analysis ScanSpec.

Variable get_financials : string -> option Financials.

Lemma entry_symbol sym x : entry_of get_financials sym = Some x -> sr_symbol x = sym.
Proof.
  unfold entry_of. destruct (calculate_ratios get_financials sym); [|discriminate].
  destruct (3 <=? _)%Z; [|discriminate]. intros H. injection H as <-. reflexivity.
Qed.

Lemma kept_symbols_sublist candidates :
  sublist (map sr_symbol (kept get_financials candidates)) candidates.
Proof.
  unfold kept. induction candidates as [|sym rest IH]; [constructor|].
  cbn [omap list_omap]. destruct (entry_of get_financials sym) as [x|] eqn:E.
  - cbn [map]. rewrite (entry_symbol sym x E). apply sublist_skip, IH.
  - apply sublist_cons, IH.
Qed.

Lemma find_undervalued_in_eq candidates N :
  find_undervalued_in get_financials candidates N
  = Ok (slice_to N (sort_desc (kept get_financials candidates))).
Proof. unfold find_undervalued_in. rewrite scan_spec. reflexivity. Qed.

Lemma length_sort_desc l : length (sort_desc l) = length l.
Proof. apply Permutation_length. apply sort_desc_spec. Qed.

(** X11: for every limit, negative ones included, the scan returns
    normally; its result is a leading part of the sorted kept entries --
    the first [N] for [N >= 0], all but the last [-N] for [N < 0] -- so it
    never has more entries than there are candidates, every entry has
    score 3 or 4 and the symbol of a candidate, and the limit 0 gives the
    empty list. *)
Theorem scan_for_any_limit (candidates : list string) (N : Z) :
  exists res,
    find_undervalued_in get_financials candidates N = Ok res /\
    res = take (Z.to_nat (if (0 <=? N)%Z then N
                          else Z.of_nat (length (kept get_financials candidates)) + N))
               (sort_desc (kept get_financials candidates)) /\
    (length res <= length candidates)%nat /\
    Forall (fun x => (3 <= sr_score x <= 4)%Z /\ sr_symbol x ∈ candidates) res /\
    (N = 0%Z -> res = []).
Proof.
  exists (slice_to N (sort_desc (kept get_financials candidates))).
  split; [apply find_undervalued_in_eq|].
  assert (Hslice : slice_to N (sort_desc (kept get_financials candidates))
            = take (Z.to_nat (if (0 <=? N)%Z then N
                              else Z.of_nat (length (kept get_financials candidates)) + N))
                   (sort_desc (kept get_financials candidates))).
  { unfold slice_to. rewrite length_sort_desc. destruct (0 <=? N)%Z; reflexivity. }
  rewrite Hslice. split; [reflexivity|].
  destruct (sort_desc_spec (kept get_financials candidates)) as (Hp & _ & _).
  assert (Hall : Forall (fun x => (3 <= sr_score x <= 4)%Z /\ sr_symbol x ∈ candidates)
                   (sort_desc (kept get_financials candidates))).
  { eapply Permutation_Forall; [symmetry; exact Hp|].
    apply Forall_forall. intros x Hx. split.
    - pose proof (kept_range get_financials candidates) as Hr.
      rewrite Forall_forall in Hr. apply Hr, Hx.
    - apply kept_entry in Hx. destruct Hx as (sym & r & Hin & _ & _ & ->). exact Hin. }
  split; [|split].
  - rewrite length_take, length_sort_desc.
    pose proof (sublist_length _ _ (kept_symbols_sublist candidates)) as Hl.
    rewrite length_map in Hl. lia.
  - apply Forall_take, Hall.
  - intros ->. reflexivity.
Qed.

(** X12: asking for fewer gives the top of the longer answer: for
    [0 <= N <= M] the result for the limit [N] is the first [N] entries of
    the result for the limit [M]. *)
Theorem smaller_limit_is_a_prefix (candidates : list string) (N M : Z) :
  (0 <= N <= M)%Z ->
  exists res_N res_M,
    find_undervalued_in get_financials candidates N = Ok res_N /\
    find_undervalued_in get_financials candidates M = Ok res_M /\
    res_N = take (Z.to_nat N) res_M.
Proof.
  intros [HN HM]. rewrite !find_undervalued_in_eq. eexists _, _.
  split; [reflexivity|]. split; [reflexivity|].
  unfold slice_to.
  assert ((0 <=? N)%Z = true) as -> by (apply Z.leb_le; lia).
  assert ((0 <=? M)%Z = true) as -> by (apply Z.leb_le; lia).
  rewrite take_take. f_equal. lia.
Qed.

(** X13: no symbol is reported twice when the candidate list names none
    twice. *)
Theorem scan_reports_a_symbol_once (candidates : list string) (N : Z) (res : list ScoreRecord) :
  NoDup candidates ->
  find_undervalued_in get_financials candidates N = Ok res ->
  NoDup (map sr_symbol res).
Proof.
  intros Hnd Hres. rewrite find_undervalued_in_eq in Hres. injection Hres as <-.
  assert (Hk : NoDup (map sr_symbol (kept get_financials candidates))).
  { eapply sublist_NoDup; [exact Hnd | apply kept_symbols_sublist]. }
  assert (Hs : NoDup (map sr_symbol (sort_desc (kept get_financials candidates)))).
  { assert (Hperm : Permutation
              (map sr_symbol (sort_desc (kept get_financials candidates)))
              (map sr_symbol (kept get_financials candidates)))
      by (apply Permutation_map, sort_desc_spec).
    rewrite Hperm. exact Hk. }
  unfold slice_to.
  destruct (0 <=? N)%Z; rewrite map_take;
    (eapply sublist_NoDup; [exact Hs | apply sublist_take]).
Qed.

End ScanLimits.

(** The theorem at three healthy candidates and the limit -1. *)
Lemma scan_for_any_limit_witness :
  exists res,
    Analysis.find_undervalued_in healthy ["A"; "B"; "C"] (-1) = Ok res /\
    (length res <= 3)%nat.
Proof.
  destruct (scan_for_any_limit healthy ["A"; "B"; "C"] (-1)) as (res & H & _ & Hl & _).
  exists res. split; [exact H | exact Hl].
Defined.

(** The theorem at three healthy candidates and the limits 1 and 2. *)
Lemma smaller_limit_witness :
  exists res_1 res_2,
    Analysis.find_undervalued_in healthy ["A"; "B"; "C"] 1 = Ok res_1 /\
    Analysis.find_undervalued_in healthy ["A"; "B"; "C"] 2 = Ok res_2 /\
    res_1 = take 1 res_2.
Proof.
  apply (smaller_limit_is_a_prefix healthy ["A"; "B"; "C"] 1 2). lia.
Defined.

Lemma candidates_NoDup : NoDup Analysis.candidates.
Proof. apply (bool_decide_unpack _). vm_compute. exact I. Qed.

(** The theorem at the scanner's own universe, every symbol healthy. *)
Lemma scan_reports_once_witness :
  exists res, Analysis.find_undervalued_stocks healthy 5 = Ok res /\
              NoDup (map Analysis.sr_symbol res).
Proof.
  unfold Analysis.find_undervalued_stocks.
  destruct (scan_for_any_limit healthy Analysis.candidates 5) as (res & H & _).
  exists res. split; [exact H|].
  apply (scan_reports_a_symbol_once healthy Analysis.candidates 5 res);
    [exact candidates_NoDup | exact H].
Defined.

(** ** Comparing companies *)

Section CompanyFacts.

Import Analysis ScanSpec Companies.

Variable get_financials : string -> option Financials.



End CompanyFacts.

(** ** The baseline signal *)




Lemma Qpos_20 : 0 < inject_Z (Z.of_nat 20).
Proof. reflexivity. Qed.





(** ** The endpoint and its three callers of the baseline *)

Section PredictAnswers.

Import Api.

Variable get_stock_data : string -> string -> list Bar.

(** X16: [predict] answers 404 exactly when the frame is empty.  On any
    other frame the symbol, the baseline prediction, the price and the SMA
    of the answer are those of the frame alone, whatever the artifacts and
    the feature computation do; and when the model or the scaler is not
    loaded the custom part is the sentinel. *)
Theorem predict_baseline_ignores_the_model
    (custom_model : option (FeatureRow -> Exc (list F)))
    (scaler : option (FeatureRow -> Exc FeatureRow))
    (features_of : list Bar -> option FeatureRow) (symbol : string) :
  let df := get_stock_data symbol "1y" in
  (df = [] ->
   predict_with get_stock_data custom_model scaler features_of symbol
   = Raise (HTTPException 404 "Stock data not found")) /\
  (df <> [] ->
   exists custom,
     predict_with get_stock_data custom_model scaler features_of symbol
     = Ok {| p_symbol := symbol;
             p_prediction := baseline df;
             p_current_price := last_close df;
             p_sma_20 := sma20 df;
             p_custom_model := custom |} /\
     cm_model_type custom = "AdaBoost" /\
     (custom_model = None \/ scaler = None -> custom = insufficient_data)).
Proof.
  cbv zeta. unfold predict_with.
  destruct (get_stock_data symbol "1y") as [|b df']; split; intros H;
    try reflexivity; try contradiction; try discriminate.
  eexists. split; [reflexivity|]. split; [reflexivity|].
  intros [-> | ->]; [reflexivity|]. destruct custom_model; reflexivity.
Qed.

Variable model : FeatureRow -> Exc (list F).
Variable scale : FeatureRow -> Exc FeatureRow.

(** X17: when the model answers with two probabilities that sum to 1,
    the call is UP exactly when the class-1 probability is above 0.5, it
    is DOWN otherwise, and the reported confidence is the probability of
    the class called, hence at least 0.5. *)
Theorem model_call_confidence (symbol : string) scaled (p0 p1 : Q) :
  let df := get_stock_data symbol "1y" in
  (60 < length df)%nat ->
  scale (fillna (feature_row df (length df - 1))) = Ok scaled ->
  model scaled = Ok [Fin p0; Fin p1] ->
  p0 + p1 == 1 ->
  exists resp c,
    predict get_stock_data (Some model) (Some scale) symbol = Ok resp /\
    cm_confidence (p_custom_model resp) = Fin c /\
    1 # 2 <= c /\
    (cm_prediction (p_custom_model resp) = "UP" <-> 1 # 2 < p1) /\
    (cm_prediction (p_custom_model resp) = "DOWN" <-> p1 <= 1 # 2) /\
    (cm_prediction (p_custom_model resp) = "UP" -> c = p1) /\
    (cm_prediction (p_custom_model resp) = "DOWN" -> c = p0).
Proof.
  cbv zeta. intros Hlen Hscale Hmodel Hsum.
  assert (Hne : get_stock_data symbol "1y" <> [])
    by (intros E; rewrite E in Hlen; cbn in Hlen; lia).
  pose proof (calculate_features_nonempty _ Hne) as Hcf.
  unfold predict, predict_with.
  destruct (get_stock_data symbol "1y") as [|b df'] eqn:E; [contradiction|].
  assert (Hguard : (60 <? length (b :: df'))%nat = true)
    by (apply Nat.ltb_lt; exact Hlen).
  unfold custom_try. rewrite Hguard, Hcf, Hscale.
  cbn [length Nat.eqb negb andb]. rewrite Hmodel.
  cbn [lookup list_lookup]. unfold gt. cbn [lt].
  destruct (Qlt_b (1 # 2) p1) eqn:Ecmp.
  - apply Qlt_b_spec in Ecmp. cbn.
    eexists _, p1. split; [reflexivity|]. split; [reflexivity|].
    split; [lra|]. repeat split; intros; try discriminate; try assumption;
      try reflexivity; lra.
  - apply Qlt_b_false in Ecmp. cbn.
    eexists _, p0. split; [reflexivity|]. split; [reflexivity|].
    split; [lra|]. repeat split; intros; try discriminate; try assumption;
      try reflexivity; lra.
Qed.

(** X18: an exception of the scaler or of the model is treated
    differently by the two front ends: on the same frame of more than 60
    sessions the dashboard block of huggingface_app.py raises it, while the
    endpoint answers normally with the sentinel. *)
Theorem dashboard_raises_where_endpoint_answers (symbol : string) (e : PyErr) :
  let df := get_stock_data symbol "1y" in
  (60 < length df)%nat ->
  (scale (fillna (feature_row df (length df - 1))) = Raise e \/
   exists scaled, scale (fillna (feature_row df (length df - 1))) = Ok scaled /\
                  model scaled = Raise e) ->
  Hf.custom_block (Some model) (Some scale) df = Raise e /\
  exists resp,
    predict get_stock_data (Some model) (Some scale) symbol = Ok resp /\
    p_custom_model resp = insufficient_data.
Proof.
  cbv zeta. intros Hlen Hfail.
  assert (Hne : get_stock_data symbol "1y" <> [])
    by (intros E; rewrite E in Hlen; cbn in Hlen; lia).
  pose proof (calculate_features_nonempty _ Hne) as Hcf.
  unfold predict, predict_with, Hf.custom_block.
  destruct (get_stock_data symbol "1y") as [|b df'] eqn:E; [contradiction|].
  assert (Hguard : (60 <? length (b :: df'))%nat = true)
    by (apply Nat.ltb_lt; exact Hlen).
  unfold custom_try. rewrite Hguard, Hcf.
  destruct Hfail as [Hs | (scaled & Hs & Hm)]; rewrite Hs;
    cbn [bindE length Nat.eqb negb andb];
    [|rewrite Hm; cbn [bindE]];
    (split; [reflexivity | eexists; split; reflexivity]).
Qed.

End PredictAnswers.

(** The theorem at 61 rising sessions and a model that gives class 1 the
    probability 0.2: DOWN at 0.8. *)
Lemma model_call_confidence_witness :
  exists resp,
    Api.predict (fun _ _ => rising_bars 61) (Some bearish_model)
      (Some identity_scaler) "SPY" = Ok resp /\
    Api.cm_prediction (Api.p_custom_model resp) = "DOWN" /\
    Api.cm_confidence (Api.p_custom_model resp) = Fin (8 # 10).
Proof.
  destruct (model_call_confidence (fun _ _ => rising_bars 61) bearish_model
              identity_scaler "SPY" (fillna (feature_row (rising_bars 61) 60))
              (8 # 10) (2 # 10)) as (resp & c & H & Hc & _ & _ & Hd & _ & Hc0).
  - vm_compute. lia.
  - reflexivity.
  - reflexivity.
  - reflexivity.
  - exists resp. split; [exact H|].
    assert (Hdown : Api.cm_prediction (Api.p_custom_model resp) = "DOWN")
      by (apply Hd; vm_compute; discriminate).
    split; [exact Hdown|]. rewrite Hc, (Hc0 Hdown). reflexivity.
Defined.

(** The theorem at 61 rising sessions and a scaler that rejects the row. *)
Lemma dashboard_raises_witness :
  Hf.custom_block (Some bullish_model) (Some broken_scaler) (rising_bars 61)
  = Raise (ValueError "X has 5 features, but StandardScaler is expecting 4 features").
Proof.
  apply (dashboard_raises_where_endpoint_answers (fun _ _ => rising_bars 61)
           bullish_model broken_scaler "SPY").
  - vm_compute. lia.
  - left. reflexivity.
Defined.

(** The theorem at 61 rising sessions with no artifact loaded. *)
Lemma predict_baseline_witness :
  exists custom,
    Api.predict_with (fun _ _ => rising_bars 61) None None calculate_features "SPY"
    = Ok {| Api.p_symbol := "SPY";
            Api.p_prediction := Api.baseline (rising_bars 61);
            Api.p_current_price := Api.last_close (rising_bars 61);
            Api.p_sma_20 := Api.sma20 (rising_bars 61);
            Api.p_custom_model := custom |} /\
    custom = insufficient_data.
Proof.
  destruct (predict_baseline_ignores_the_model (fun _ _ => rising_bars 61)
              None None calculate_features "SPY") as [_ H].
  destruct H as (custom & Hp & _ & Hs); [discriminate|].
  exists custom. split; [exact Hp | apply Hs; left; reflexivity].
Defined.

(** ** The same signal in three places *)




Section InferenceFacts.

Variable get_stock_data : string -> string -> list Bar.


End InferenceFacts.


(** ** The data layer *)

Section DataLayerFacts.

Import DataLayer.

Variable history : string -> string -> Exc Frame.

(** X21: [get_stock_data] never raises and never hands over a partial
    frame: its result is either the empty frame or the provider's frame
    unchanged, and in that case the frame has rows and every one of Open,
    High, Low, Close and Volume. *)
Theorem get_stock_data_all_or_nothing (symbol period : string) :
  get_stock_data history symbol period = empty_frame \/
  (history symbol period = Ok (get_stock_data history symbol period) /\
   is_empty (get_stock_data history symbol period) = false /\
   Forall (fun col => is_Some (columns (get_stock_data history symbol period) !! col))
          required_cols).
Proof.
  unfold get_stock_data.
  destruct (history symbol period) as [h|e]; [|left; reflexivity].
  destruct (is_empty h) eqn:He; [left; reflexivity|].
  destruct (forallb (has_column h) required_cols) eqn:Hc; [|left; reflexivity].
  right. split; [reflexivity|]. split; [exact He|].
  apply Forall_forall. intros col Hin.
  rewrite forallb_forall in Hc. apply list_elem_of_In in Hin.
  specialize (Hc col Hin). unfold has_column in Hc.
  apply bool_decide_eq_true in Hc. exact Hc.
Qed.

End DataLayerFacts.

(** The theorem at a provider frame with all of the columns. *)
Lemma get_stock_data_witness :
  DataLayer.is_empty
    (DataLayer.get_stock_data (fun _ _ => Ok complete_frame) "AAPL" "1y") = false.
Proof.
  destruct (get_stock_data_all_or_nothing (fun _ _ => Ok complete_frame) "AAPL" "1y")
    as [H | (_ & H & _)].
  - apply (f_equal (fun f => length (DataLayer.index f))) in H.
    vm_compute in H. discriminate.
  - exact H.
Defined.

(** ** Headlines and the sentiment answer *)

Section HeadlineFacts.

Import Sentiment.

Lemma nonempty_Some (s : option string) (h : string) :
  nonempty s = Some h -> s = Some h /\ h <> "".
Proof.
  destruct s as [[|c t]|]; cbn; intros H; try discriminate;
    injection H as <-; split; [reflexivity | discriminate].
Qed.

Lemma title_of_Some (item : NewsItem) (h : string) :
  title_of item = Some h ->
  h <> "" /\
  (item_title item = Some h \/
   (nonempty (item_title item) = None /\ item_content_title item = Some h) \/
   (nonempty (item_title item) = None /\
    nonempty (item_content_title item) = None /\ item_summary item = Some h)).
Proof.
  unfold title_of.
  destruct (nonempty (item_title item)) as [t|] eqn:E1.
  - intros H. injection H as <-. apply nonempty_Some in E1. destruct E1. auto.
  - destruct (nonempty (item_content_title item)) as [t|] eqn:E2.
    + intros H. injection H as <-. apply nonempty_Some in E2. destruct E2. auto.
    + intros H. apply nonempty_Some in H. destruct H. auto 6.
Qed.

(** X22: at most five headlines are extracted, in the order of the news
    items; none is empty; and each is the title of one of the first five
    items, or, when that title is missing or empty, its nested title, or,
    when that is missing or empty too, its summary. *)
Theorem headlines_extracted (news_items : list NewsItem) :
  (length (extract_headlines news_items) <= 5)%nat /\
  (length (extract_headlines news_items) <= length news_items)%nat /\
  sublist (extract_headlines news_items)
          (map (fun item => default "" (title_of item)) (take 5 news_items)) /\
  Forall (fun h =>
            h <> "" /\
            exists item, item ∈ take 5 news_items /\
              (item_title item = Some h \/
               (nonempty (item_title item) = None /\ item_content_title item = Some h) \/
               (nonempty (item_title item) = None /\
                nonempty (item_content_title item) = None /\
                item_summary item = Some h)))
         (extract_headlines news_items).
Proof.
  unfold extract_headlines.
  assert (Hlen : forall l : list NewsItem, (length (omap title_of l) <= length l)%nat).
  { induction l as [|x l IH]; cbn; [lia|]. destruct (title_of x); cbn; lia. }
  split; [|split; [|split]].
  - pose proof (Hlen (take 5 news_items)) as H. rewrite length_take in H. lia.
  - pose proof (Hlen (take 5 news_items)) as H. rewrite length_take in H. lia.
  - induction (take 5 news_items) as [|x l IH]; [constructor|].
    cbn [omap list_omap map]. destruct (title_of x); cbn [default].
    + apply sublist_skip, IH.
    + apply sublist_cons, IH.
  - apply Forall_forall. intros h Hh. apply list_elem_of_omap in Hh.
    destruct Hh as (item & Hin & Ht). apply title_of_Some in Ht.
    destruct Ht as [Hne Hsrc]. split; [exact Hne|]. exists item. auto.
Qed.

Lemma aggregate_loop_news (pairs : list (string * Classified)) acc news :
  (foldl (fun '(sentiment_score, analyzed_news) '(headline, result) =>
            (sentiment_score + signed_score result,
             analyzed_news ++ [mkNews headline (label result) (score result)]))
         (acc, news) pairs).2
  = news ++ map (fun '(headline, result) =>
                   mkNews headline (label result) (score result)) pairs.
Proof.
  revert acc news. induction pairs as [|[h r] pairs IH]; intros acc news.
  - cbn. rewrite app_nil_r. reflexivity.
  - cbn [foldl map]. rewrite IH, <- app_assoc. reflexivity.
Qed.

Lemma signed_score_bound (c : Classified) :
  score_in_unit c -> - (1) <= signed_score c <= 1.
Proof.
  unfold score_in_unit, signed_score. intros H.
  destruct (String.eqb (label c) "positive"); [lra|].
  destruct (String.eqb (label c) "negative"); lra.
Qed.

Lemma sum_signed_bound (results : list Classified) :
  Forall score_in_unit results ->
  - inject_Z (Z.of_nat (length results)) <= sum_signed results
  <= inject_Z (Z.of_nat (length results)).
Proof.
  induction 1 as [|c l Hc _ IH].
  - unfold sum_signed. cbn. split; apply Qle_refl.
  - unfold sum_signed in *. cbn [map foldr length].
    pose proof (signed_score_bound c Hc) as Hb.
    rewrite Nat2Z.inj_succ. unfold Z.succ. rewrite inject_Z_plus.
    change (inject_Z 1) with 1. lra.
Qed.

(** X23: the answer lists one entry per classified headline, in order,
    with the classifier's label and score unchanged; and when the scores
    are probabilities the aggregate lies between minus and plus the number
    of entries: the accumulator is not normalised, but it is bounded by
    the size of the batch. *)
Theorem aggregate_news_and_bound (headlines : list string) (results : list Classified) :
  let r := aggregate headlines results in
  news r = zip_with (fun h c => mkNews h (label c) (score c)) headlines results /\
  length (news r) = Nat.min (length headlines) (length results) /\
  (Forall score_in_unit results ->
   - inject_Z (Z.of_nat (length (news r))) <= sentiment_score r
   <= inject_Z (Z.of_nat (length (news r)))).
Proof.
  cbv zeta.
  assert (Hnews : news (aggregate headlines results)
                  = zip_with (fun h c => mkNews h (label c) (score c)) headlines results).
  { unfold aggregate.
    pose proof (aggregate_loop_news (zip headlines results) 0 []) as H.
    unfold aggregate_loop.
    destruct (foldl _ (0, []) (zip headlines results)) as [s n] eqn:E.
    cbn [news]. cbn [snd] in H. rewrite H. cbn [app].
    clear. revert results. induction headlines as [|h hs IH]; intros [|c cs];
      cbn; try reflexivity. f_equal. apply IH. }
  assert (Hlen : length (news (aggregate headlines results))
                 = Nat.min (length headlines) (length results)).
  { rewrite Hnews. apply length_zip_with. }
  split; [exact Hnews|]. split; [exact Hlen|].
  intros Hunit.
  assert (Hscore : sentiment_score (aggregate headlines results)
                   == sum_signed (take (length headlines) results)).
  { rewrite sentiment_score_aggregate. unfold aggregate_loop.
    rewrite aggregate_loop_from, snd_zip_take. lra. }
  rewrite Hscore, Hlen.
  pose proof (sum_signed_bound (take (length headlines) results)
                (Forall_take _ _ _ Hunit)) as Hb.
  rewrite length_take in Hb. exact Hb.
Qed.

Variable ticker_news : string -> list NewsItem.

(** X24: the two sentiment front ends agree: the dashboard's
    [analyze_sentiment] has a result exactly when the endpoint's
    [get_sentiment] has an analysed one, and it is the same result; every
    other answer of the endpoint (no model, no news, no headline, an
    exception of the classifier) is "no data" on the dashboard. *)
Theorem sentiment_front_ends_agree
    (pipe : option (list string -> Exc (list Classified))) (symbol : string) :
  analyze_sentiment pipe ticker_news symbol
  = match get_sentiment pipe ticker_news symbol with
    | Analysed r => Some r
    | _ => None
    end.
Proof.
  unfold analyze_sentiment, get_sentiment.
  destruct pipe as [pipe|]; [|reflexivity].
  destruct (ticker_news symbol) as [|item items].
  - destruct (ticker_news "SPY") as [|item items]; [reflexivity|].
    destruct (extract_headlines (item :: items)); [reflexivity|].
    destruct (pipe _); reflexivity.
  - destruct (extract_headlines (item :: items)); [reflexivity|].
    destruct (pipe _); reflexivity.
Qed.

(** X25: the endpoint never fails and never over-reads: whatever the
    news source and the classifier do, an analysed answer has between one
    and five entries, and with probabilities as scores its aggregate lies
    in [-5, 5]; a symbol without news is analysed on the news of SPY. *)
Theorem get_sentiment_answer
    (pipe : list string -> Exc (list Classified)) (symbol : string) (r : SentimentResult) :
  get_sentiment (Some pipe) ticker_news symbol = Analysed r ->
  exists headlines results,
    headlines = extract_headlines
                  (match ticker_news symbol with
                   | [] => ticker_news "SPY"
                   | items => items
                   end) /\
    headlines <> [] /\
    pipe headlines = Ok results /\
    r = aggregate headlines results /\
    (length (news r) <= 5)%nat /\
    (Forall score_in_unit results -> - (5) <= sentiment_score r <= 5).
Proof.
  unfold get_sentiment. intros H.
  set (items := match ticker_news symbol with [] => ticker_news "SPY" | _ => ticker_news symbol end) in *.
  assert (Hitems : items = match ticker_news symbol with
                           | [] => ticker_news "SPY"
                           | items => items
                           end).
  { unfold items. destruct (ticker_news symbol); reflexivity. }
  destruct items as [|item rest] eqn:Ei; [discriminate|].
  destruct (extract_headlines (item :: rest)) as [|h hs] eqn:Eh; [discriminate|].
  destruct (pipe (h :: hs)) as [results|e] eqn:Ep; [|discriminate].
  injection H as <-.
  exists (h :: hs), results.
  split; [rewrite <- Hitems; symmetry; exact Eh|].
  split; [discriminate|]. split; [exact Ep|]. split; [reflexivity|].
  destruct (aggregate_news_and_bound (h :: hs) results) as (_ & Hlen & Hb).
  destruct (headlines_extracted (item :: rest)) as (H5 & _).
  rewrite Eh in H5.
  assert (Hn5 : (length (news (aggregate (h :: hs) results)) <= 5)%nat) by lia.
  split; [exact Hn5|].
  intros Hunit. specialize (Hb Hunit).
  assert (Hq : inject_Z (Z.of_nat (length (news (aggregate (h :: hs) results)))) <= 5).
  { change 5 with (inject_Z 5). rewrite <- Zle_Qle. lia. }
  lra.
Qed.

End HeadlineFacts.

(** The theorem at the news of the example and a classifier that calls
    every headline positive at 0.9. *)
Lemma aggregate_news_witness :
  Sentiment.sentiment_score
    (Sentiment.aggregate (Sentiment.extract_headlines sample_news)
       (map (fun _ => Sentiment.mkClassified "positive" (9 # 10))
            (Sentiment.extract_headlines sample_news)))
  <= 3.
Proof.
  destruct (aggregate_news_and_bound (Sentiment.extract_headlines sample_news)
              (map (fun _ => Sentiment.mkClassified "positive" (9 # 10))
                   (Sentiment.extract_headlines sample_news))) as (_ & _ & H).
  destruct H as [_ H].
  - repeat (apply Forall_cons_2; [split; cbn; lra|]). apply Forall_nil_2.
  - exact H.
Defined.

(** The theorem at a symbol without news of its own, answered from the
    news of SPY. *)
Lemma get_sentiment_answer_witness :
  exists r,
    Sentiment.get_sentiment (Some upbeat_pipe)
      (fun s => if String.eqb s "SPY" then sample_news else []) "XYZ"
    = Sentiment.Analysed r /\
    (length (Sentiment.news r) <= 5)%nat.
Proof.
  destruct (Sentiment.get_sentiment (Some upbeat_pipe)
              (fun s => if String.eqb s "SPY" then sample_news else []) "XYZ")
    as [err| |r] eqn:E; try (vm_compute in E; discriminate).
  exists r. split; [reflexivity|].
  destruct (get_sentiment_answer
              (fun s => if String.eqb s "SPY" then sample_news else [])
              upbeat_pipe "XYZ" r E) as (hs & rs & _ & _ & _ & _ & H & _).
  exact H.
Defined.

(** ** The back-test *)

Section EvaluationFacts.

Import Evaluation.

Lemma length_cumprod_from acc xs : length (cumprod_from acc xs) = length xs.
Proof.
  revert acc. induction xs as [|x xs IH]; intros acc; [reflexivity|].
  cbn [cumprod_from]. destruct (is_nan x); cbn [length]; rewrite IH; reflexivity.
Qed.

Lemma compounded_outcome (returns : list F) :
  match returns with
  | [] => compounded returns = Raise (LibraryError "IndexError")
  | _ => exists v, compounded returns = Ok v
  end.
Proof.
  destruct returns as [|r rest]; [reflexivity|].
  unfold compounded, iloc_last_exn.
  destruct (last (cumprod (map (fun r0 => (Fin 1 + r0)%F) (r :: rest)))) as [v|] eqn:E;
    [eexists; reflexivity|].
  apply last_None in E. apply (f_equal length) in E.
  unfold cumprod in E. rewrite length_cumprod_from, length_map in E. discriminate.
Qed.

Lemma length_pct_change xs : length (pct_change xs) = length xs.
Proof. unfold pct_change. rewrite length_zip_with, length_shift. lia. Qed.

Lemma length_Signal df : length (Signal df) = length df.
Proof.
  unfold Signal, signal, SMA20.
  rewrite length_zip_with, length_rolling_mean, length_Close. lia.
Qed.

Lemma length_Strategy_Return df : length (Strategy_Return df) = length df.
Proof.
  unfold Strategy_Return, Position, Daily_Return.
  rewrite length_zip_with, length_shift, length_map, length_Signal,
    length_pct_change, length_Close. lia.
Qed.

Variable get_stock_data : string -> string -> list Bar.

(** X26: the back-test reports "No data." on an empty frame, fails with
    an IndexError on a frame of exactly one session (the training slice
    [df.iloc[:0]] is empty and its last row is read), and produces its
    four figures on every frame of two sessions or more. *)
Theorem evaluate_strategy_outcome (symbol : string) :
  let df := get_stock_data symbol "2y" in
  (df = [] -> evaluate_strategy get_stock_data symbol = Ok None) /\
  (length df = 1%nat ->
   evaluate_strategy get_stock_data symbol = Raise (LibraryError "IndexError")) /\
  ((2 <= length df)%nat ->
   exists report, evaluate_strategy get_stock_data symbol = Ok (Some report)).
Proof.
  cbv zeta. unfold evaluate_strategy.
  destruct (get_stock_data symbol "2y") as [|b df'] eqn:E.
  { split; [reflexivity|]. split; cbn; intros; lia. }
  cbv beta iota.
  assert (Hpos : (0 < length (b :: df'))%nat) by (cbn; lia).
  remember (b :: df') as df eqn:Edf.
  assert (Hfull : forall xs, length xs = length df -> exists v, compounded xs = Ok v).
  { intros xs Hlen. pose proof (compounded_outcome xs) as H.
    destruct xs; [cbn [length] in Hlen; lia | exact H]. }
  destruct (Hfull (Daily_Return df)) as [cm Hcm].
  { unfold Daily_Return. rewrite length_pct_change, length_Close. reflexivity. }
  destruct (Hfull (Strategy_Return df)) as [cs Hcs].
  { apply length_Strategy_Return. }
  rewrite Hcm, Hcs. cbn [bindE].
  split; [intros H0; rewrite H0 in Hpos; cbn in Hpos; lia|]. split.
  - intros H1. unfold split_idx. rewrite H1.
    change (4 * 1 / 5)%nat with 0%nat. rewrite take_0. reflexivity.
  - intros H2.
    assert (Hidx : (1 <= split_idx df < length df)%nat).
    { unfold split_idx. split.
      - apply Nat.div_le_lower_bound; lia.
      - apply Nat.Div0.div_lt_upper_bound; lia. }
    pose proof (compounded_outcome (take (split_idx df) (Strategy_Return df))) as Ht.
    pose proof (compounded_outcome (drop (split_idx df) (Strategy_Return df))) as Hv.
    destruct (take (split_idx df) (Strategy_Return df)) as [|x xs] eqn:Et.
    { apply (f_equal length) in Et. rewrite length_take, length_Strategy_Return in Et.
      cbn [length] in Et. lia. }
    destruct (drop (split_idx df) (Strategy_Return df)) as [|z zs] eqn:Ev.
    { apply (f_equal length) in Ev. rewrite length_drop, length_Strategy_Return in Ev.
      cbn [length] in Ev. lia. }
    destruct Ht as [tv ->], Hv as [vv ->]. cbn [bindE]. eexists. reflexivity.
Qed.

End EvaluationFacts.

(** The theorem at a frame of one session. *)
Lemma evaluate_strategy_witness :
  Evaluation.evaluate_strategy (fun _ _ => rising_bars 1) "SPY"
  = Raise (LibraryError "IndexError").
Proof.
  destruct (evaluate_strategy_outcome (fun _ _ => rising_bars 1) "SPY") as (_ & H & _).
  apply H. reflexivity.
Defined.

Section WarmUpFacts.

Import Evaluation.

Lemma lookup_Signal_warm_up (df : list Bar) (t : nat) :
  (t < length df)%nat -> (t + 1 < 20)%nat -> Signal df !! t = Some 0%Z.
Proof.
  intros Ht Hw. unfold Signal, signal, SMA20.
  rewrite lookup_zip_with, lookup_Close, lookup_rolling_mean, length_Close.
  rewrite decide_True by exact Ht.
  destruct (lookup_lt_is_Some_2 df t Ht) as [b ->]. cbn.
  unfold mean_at. assert ((t + 1 <? 20)%nat = true) as -> by (apply Nat.ltb_lt; exact Hw).
  reflexivity.
Qed.

Lemma lookup_Position_warm_up (df : list Bar) (t : nat) :
  (S t < length df)%nat -> (S t < 20)%nat -> Position df !! S t = Some (Fin 0).
Proof.
  intros Ht Hw. unfold Position. rewrite lookup_shift, length_map, length_Signal.
  rewrite decide_True by exact Ht.
  rewrite list_lookup_fmap, lookup_Signal_warm_up by lia. reflexivity.
Qed.

Lemma lookup_Daily_Return (df : list Bar) (t : nat) b b' :
  df !! t = Some b -> df !! S t = Some b' -> ~ bar_close b == 0 ->
  Daily_Return df !! S t = Some (Fin (bar_close b' / bar_close b + - (1))).
Proof.
  intros Hb Hb' Hnz. unfold Daily_Return, pct_change.
  assert (Hlt : (S t < length df)%nat) by (eapply lookup_lt_Some; exact Hb').
  rewrite lookup_zip_with, lookup_shift, length_Close, !lookup_Close, Hb'.
  rewrite decide_True by exact Hlt. rewrite Hb. cbn.
  apply Qzero_b_false in Hnz. rewrite Hnz. reflexivity.
Qed.

(** During the warm-up of the average every strategy return after the
    first row is the number 0. *)
Lemma Strategy_Return_warm_up (df : list Bar) (t : nat) x :
  closes_nonzero df -> (S t < 20)%nat ->
  Strategy_Return df !! S t = Some x -> is_number 0 x.
Proof.
  intros Hnz Hw Hx.
  assert (Hlt : (S t < length df)%nat).
  { apply lookup_lt_Some in Hx. rewrite length_Strategy_Return in Hx. exact Hx. }
  destruct (lookup_lt_is_Some_2 df t) as [b Hb]; [lia|].
  destruct (lookup_lt_is_Some_2 df (S t) Hlt) as [b' Hb'].
  assert (Hb0 : ~ bar_close b == 0).
  { unfold closes_nonzero in Hnz. rewrite Forall_forall in Hnz.
    apply Hnz. eapply list_elem_of_lookup_2. exact Hb. }
  unfold Strategy_Return in Hx.
  rewrite lookup_zip_with, (lookup_Position_warm_up df t Hlt Hw),
    (lookup_Daily_Return df t b b' Hb Hb' Hb0) in Hx.
  cbn in Hx. injection Hx as <-. eexists. split; [reflexivity | ring].
Qed.

Lemma cumprod_from_ones (acc : F) (xs : list F) :
  is_number 1 acc -> Forall (is_number 1) xs ->
  is_number 1 (default acc (last (cumprod_from acc xs))).
Proof.
  revert acc. induction xs as [|x xs IH]; intros acc Hacc Hxs; [exact Hacc|].
  inversion Hxs as [|? ? Hx Hrest]; subst.
  destruct Hx as (q & -> & Hq). destruct Hacc as (a & -> & Ha).
  cbn [cumprod_from is_nan mul].
  assert (Hnext : is_number 1 (Fin (a * q))).
  { eexists. split; [reflexivity|]. rewrite Ha, Hq. ring. }
  specialize (IH (Fin (a * q)) Hnext Hrest).
  destruct xs as [|x' xs'].
  - cbn. exact Hnext.
  - rewrite last_cons.
    destruct (last (cumprod_from (Fin (a * q)) (x' :: xs'))) as [v|] eqn:E.
    + exact IH.
    + apply last_None in E. apply (f_equal length) in E.
      rewrite length_cumprod_from in E. discriminate.
Qed.

Lemma Strategy_Return_first (df : list Bar) x :
  Strategy_Return df !! 0%nat = Some x -> x = NaN.
Proof.
  unfold Strategy_Return, Position. rewrite lookup_zip_with.
  destruct (map (fun z => Fin (inject_Z z)) (Signal df)) as [|s l];
    cbn; [discriminate|].
  destruct (Daily_Return df !! 0%nat); cbn; [|discriminate].
  intros H. congruence.
Qed.

(** Compounding returns that are all 0 after an undefined first one
    gives the factor 1. *)
Lemma compounded_flat (rest : list F) (cs : F) :
  rest <> [] -> Forall (is_number 0) rest ->
  compounded (NaN :: rest) = Ok cs -> is_number 1 cs.
Proof.
  intros Hne Hzero Hcs.
  assert (Hones : Forall (is_number 1) (map (fun r => (Fin 1 + r)%F) rest)).
  { apply Forall_fmap. eapply Forall_impl; [exact Hzero|].
    intros x (q & -> & Hq). cbn. eexists. split; [reflexivity|]. rewrite Hq. ring. }
  assert (Hone : is_number 1 (Fin 1)) by (exists 1; split; reflexivity).
  pose proof (cumprod_from_ones (Fin 1) _ Hone Hones) as Hlast.
  unfold compounded, cumprod, iloc_last_exn in Hcs.
  cbn [map] in Hcs.
  destruct (map (fun r => (Fin 1 + r)%F) rest) as [|y ys] eqn:Em.
  { destruct rest; [contradiction | discriminate]. }
  change (cumprod_from (Fin 1) ((Fin 1 + NaN)%F :: y :: ys))
    with (NaN :: cumprod_from (Fin 1) (y :: ys)) in Hcs.
  rewrite last_cons in Hcs.
  destruct (last (cumprod_from (Fin 1) (y :: ys))) as [v|] eqn:El.
  - cbn [default] in Hlast. injection Hcs as <-. exact Hlast.
  - apply last_None in El. apply (f_equal length) in El.
    rewrite length_cumprod_from in El. discriminate.
Qed.

Variable get_stock_data : string -> string -> list Bar.

(** X27: the strategy stays out of the market while the average warms
    up: on a frame of 2 to 20 sessions whose closes are not zero the
    position is 0 on every row after the first, and the reported strategy
    return is 0 per cent whatever the prices did. *)
Theorem strategy_is_flat_during_warm_up (symbol : string) :
  let df := get_stock_data symbol "2y" in
  (2 <= length df <= 20)%nat ->
  closes_nonzero df ->
  (forall t, (S t < length df)%nat -> Position df !! S t = Some (Fin 0)) /\
  exists report,
    evaluate_strategy get_stock_data symbol = Ok (Some report) /\
    is_number 0 (strategy_return report).
Proof.
  cbv zeta. intros Hlen Hnz.
  split.
  { intros t Ht. apply lookup_Position_warm_up; lia. }
  destruct (evaluate_strategy_outcome get_stock_data symbol) as (_ & _ & Hok).
  assert (H2 : (2 <= length (get_stock_data symbol "2y"))%nat) by lia.
  destruct (Hok H2) as [report Hrep]. clear Hok H2.
  exists report. split; [exact Hrep|].
  unfold evaluate_strategy in Hrep.
  destruct (get_stock_data symbol "2y") as [|b df'] eqn:E; [cbn in Hlen; lia|].
  cbv beta iota zeta in Hrep.
  remember (b :: df') as df eqn:Edf.
  destruct (compounded (Daily_Return df)) as [cm|]; [|discriminate].
  cbn [bindE] in Hrep.
  destruct (compounded (Strategy_Return df)) as [cs|] eqn:Ecs; [|discriminate].
  cbn [bindE] in Hrep.
  destruct (compounded (take (split_idx df) (Strategy_Return df))); [|discriminate].
  cbn [bindE] in Hrep.
  destruct (compounded (drop (split_idx df) (Strategy_Return df))); [|discriminate].
  cbn [bindE] in Hrep.
  assert (Hsr : strategy_return report = ((cs - Fin 1) * Fin 100)%F).
  { injection Hrep as <-. reflexivity. }
  rewrite Hsr. clear Hrep Hsr.
  assert (Hcs : is_number 1 cs).
  { pose proof (length_Strategy_Return df) as Hl.
    destruct (Strategy_Return df) as [|x0 rest] eqn:Esr.
    { cbn [length] in Hl. lia. }
    assert (Hx0 : x0 = NaN).
    { apply (Strategy_Return_first df). rewrite Esr. reflexivity. }
    subst x0.
    apply (compounded_flat rest cs); [| |exact Ecs].
    - intros ->. cbn [length] in Hl. lia.
    - apply Forall_lookup. intros t x Hx.
      assert (Hsr : Strategy_Return df !! S t = Some x) by (rewrite Esr; exact Hx).
      assert (Hlt : (S t < length df)%nat).
      { apply lookup_lt_Some in Hsr. rewrite length_Strategy_Return in Hsr. exact Hsr. }
      assert (H20 : (S t < 20)%nat) by lia.
      exact (Strategy_Return_warm_up df t x Hnz H20 Hsr). }
  destruct Hcs as (p & -> & Hp). cbn.
  eexists. split; [reflexivity|]. rewrite Hp. ring.
Qed.

End WarmUpFacts.

(** The theorem at 15 rising sessions. *)
Lemma strategy_flat_witness :
  exists report,
    Evaluation.evaluate_strategy (fun _ _ => rising_bars 15) "SPY" = Ok (Some report) /\
    is_number 0 (Evaluation.strategy_return report).
Proof.
  apply (strategy_is_flat_during_warm_up (fun _ _ => rising_bars 15) "SPY").
  - vm_compute. lia.
  - unfold closes_nonzero.
    repeat (apply Forall_cons_2; [intros H; vm_compute in H; discriminate|]).
    apply Forall_nil_2.
Defined.
